(** * The e-commerce API: request schemas, document mapping and handlers

    A shallow embedding of [main.py] (the FastAPI handlers and their pydantic
    models) and of the constraint declared in [schemas.py].

    Python values that the handlers move around are an inductive [value];
    dicts are finite maps from strings; a handler is a function from the
    state of the world (database handle, logical clock, number of store
    calls) to a result and a new world.  What the libraries decide (binary64
    arithmetic and the [sum] builtin, pydantic's coercions, the id grammar of
    [bson.ObjectId], the store's regular expressions) is an interface, so the
    theorems hold for every behaviour of those libraries; one concrete
    instance is given to run the handlers on examples. *)

From Stdlib Require Import ZArith String Ascii List Bool.
From Stdlib Require PrimFloat FloatOps SpecFloat.
From stdpp Require Import gmap strings list sorting.

Set Warnings "-register-all".

Open Scope string_scope.
Open Scope Z_scope.

(** ** Library interfaces *)

(** Python's [float] (binary64).  [float_lit m e] is the literal
    [m]e[e] as the parser reads it, [float_of_int] and [float_of_str] are
    the [float(...)] builtin ([None] is OverflowError, respectively
    ValueError), [py_sum] is the [sum] builtin on a list of floats. *)
Class PyFloat := {
  float : Type;
  float_lit : Z -> Z -> float;
  float_of_int : Z -> option float;
  float_of_str : string -> option float;
  fmul : float -> float -> float;
  fle : float -> float -> bool;
  fnonzero : float -> bool;
  py_sum : list float -> float;
  float_of_int_0 : float_of_int 0 = Some (float_lit 0 0);
}.

(** The document store and its id library: [is_valid] is
    [ObjectId.is_valid] on a [str], [ObjectId] the constructor on a valid
    string, [oid_str] is [str(oid)]; [regex_compile p] is the matcher of
    the query [{"$regex": p, "$options": "i"}], [None] when the store
    rejects the pattern. *)
Class Mongo := {
  oid : Type;
  oid_eq_dec :: EqDecision oid;
  is_valid : string -> bool;
  ObjectId : string -> oid;
  oid_str : oid -> string;
  regex_compile : string -> option (string -> bool);
}.

(** ** Timestamps *)

Record datetime := {
  year : Z; month : Z; day : Z;
  hour : Z; minute : Z; second : Z; microsecond : Z;
}.

(** The ranges every [datetime] object satisfies. *)
Definition valid_datetime (t : datetime) : Prop :=
  1 <= year t <= 9999 /\ 1 <= month t <= 12 /\ 1 <= day t <= 31 /\
  0 <= hour t < 24 /\ 0 <= minute t < 60 /\ 0 <= second t < 60 /\
  0 <= microsecond t < 1000000.

Definition digit (n : Z) : ascii := ascii_of_N (Z.to_N (48 + n)).

Fixpoint decimal_aux (fuel : nat) (n : Z) (acc : string) : string :=
  match fuel with
  | O => acc
  | S fuel' =>
      let acc' := String (digit (n mod 10)) acc in
      if n / 10 =? 0 then acc' else decimal_aux fuel' (n / 10) acc'
  end.

(** [str(n)] for a natural number: a number has no more decimal digits
    than binary ones, which bounds the recursion. *)
Definition decimal (n : Z) : string := decimal_aux (S (Z.to_nat (Z.log2 n))) n "".

Fixpoint zeros (k : nat) : string :=
  match k with O => "" | S k' => String "0" (zeros k') end.

(** [s.zfill(width)]: left padding with zeros, never truncating. *)
Definition zfill (width : nat) (s : string) : string :=
  (zeros (width - String.length s) ++ s)%string.

(** [t.strftime('%Y%m%d%H%M%S')], as the C library of the platform prints
    it: two positions for each field but the year, which is printed as it
    is, in fewer than four positions when it is below 1000. *)
Definition strftime (t : datetime) : string :=
  (decimal (year t) ++ zfill 2 (decimal (month t)) ++
   zfill 2 (decimal (day t)) ++ zfill 2 (decimal (hour t)) ++
   zfill 2 (decimal (minute t)) ++ zfill 2 (decimal (second t)))%string.

Definition is_digit (c : ascii) : bool :=
  let n := N_of_ascii c in (48 <=? n)%N && (n <=? 57)%N.


(** Python's order on [datetime] is the lexicographic order on its fields. *)
Definition datetime_key (t : datetime) : list Z :=
  [year t; month t; day t; hour t; minute t; second t; microsecond t].

Fixpoint lex_leb (k1 k2 : list Z) : bool :=
  match k1, k2 with
  | [], _ => true
  | _ :: _, [] => false
  | x :: k1', y :: k2' => (x <? y) || ((x =? y) && lex_leb k1' k2')
  end.

(** ** Substrings

    The reading the specification gives of the text query: the title
    contains the query as a substring, letters compared in any case. *)

Definition lower (c : ascii) : ascii :=
  let n := N_of_ascii c in
  if ((65 <=? n) && (n <=? 90))%N then ascii_of_N (n + 32) else c.

Fixpoint iprefix (q s : string) : bool :=
  match q, s with
  | EmptyString, _ => true
  | String _ _, EmptyString => false
  | String c q', String x s' => Ascii.eqb (lower c) (lower x) && iprefix q' s'
  end.

Fixpoint icontains (q s : string) : bool :=
  iprefix q s ||
  match s with
  | EmptyString => false
  | String _ s' => icontains q s'
  end.

(** ** Failures *)

(** Python exceptions that no handler catches. *)
Inductive exn :=
| TypeError | ValueError | OverflowError | AttributeError
| ValidationError | OperationFailure | DatabaseNotAvailable.

(** How a request ends when it does not succeed: an [HTTPException] raised
    by a handler, the framework's rejection of a body that does not fit the
    declared model, or an exception nobody catches. *)
Inductive failure :=
| HTTPException (status_code : nat) (detail : string)
| RequestValidationError
| Unhandled (e : exn).

(** The HTTP status the framework answers with. *)
Definition status_of (f : failure) : nat :=
  match f with
  | HTTPException c _ => c
  | RequestValidationError => 422
  | Unhandled _ => 500
  end.

Inductive result (A : Type) :=
| Ok (a : A)
| Err (f : failure).
Arguments Ok {A} a.
Arguments Err {A} f.

#[export] Instance result_ret : MRet result := fun A a => Ok a.
#[export] Instance result_bind : MBind result := fun A B k r =>
  match r with Ok a => k a | Err f => Err f end.

Definition of_option {A} (e : exn) (o : option A) : result A :=
  match o with Some a => Ok a | None => Err (Unhandled e) end.

(** ** Values, schemas and the store *)

Section Model.
Context `{PyFloat} `{Mongo}.

(** The Python values a request body or a stored document is made of. *)
Inductive value :=
| VNone
| VBool (b : bool)
| VInt (n : Z)
| VFloat (x : float)
| VStr (s : string)
| VDatetime (t : datetime)
| VList (l : list value)
| VDict (d : gmap string value).

(** pydantic's validators of the scalar field types, in the mode the models
    run in.  Which spellings they coerce is the library's business; that a
    [str] field takes a string as it is and refuses [None] is all the
    handlers rely on. *)
Class Pydantic := {
  validate_str : value -> option string;
  validate_float : value -> option float;
  validate_int : value -> option Z;
  validate_bool : value -> option bool;
  validate_str_str : forall s, validate_str (VStr s) = Some s;
  validate_str_None : validate_str VNone = None;
}.

(** The process environment: the system clock and the id generator, read by
    the logical time of the world. *)
Class Env := {
  utcnow : nat -> datetime;
  new_oid : nat -> oid;
}.

Context `{!Pydantic} `{!Env}.

(** *** Field combinators *)

(** A field declared without default ([...]). *)
Definition required {A} (m : gmap string value) (k : string)
    (v : value -> option A) : option A :=
  m !! k ≫= v.

(** A field declared with a default: the default is taken as it is. *)
Definition with_default {A} (m : gmap string value) (k : string)
    (v : value -> option A) (dflt : A) : option A :=
  match m !! k with
  | None => Some dflt
  | Some x => v x
  end.

(** [Optional[T]]. *)
Definition optional {A} (v : value -> option A) (x : value) : option (option A) :=
  match x with
  | VNone => Some None
  | _ => Some <$> v x
  end.

(** [Field(..., ge=0)] on a float. *)
Definition ge_0 (x : float) : option float :=
  if fle (float_lit 0 0) x then Some x else None.

(** [Field(..., le=5)] on a float. *)
Definition le_5 (x : float) : option float :=
  if fle x (float_lit 5 0) then Some x else None.

(** [Field(..., ge=1)] on an int. *)
Definition ge_1 (n : Z) : option Z :=
  if 1 <=? n then Some n else None.

Definition opt_str (o : option string) : value :=
  match o with Some s => VStr s | None => VNone end.

Definition opt_float (o : option float) : value :=
  match o with Some x => VFloat x | None => VNone end.

(** *** Product models (main.py) *)

Record CreateProduct := {
  cp_title : string;
  cp_description : option string;
  cp_price : float;
  cp_category : string;
  cp_in_stock : bool;
  cp_image : option string;
  cp_rating : option float;
}.

(** Validation of a request body against [CreateProduct]; keys the model
    does not declare are ignored. *)
Definition validate_CreateProduct (body : value) : option CreateProduct :=
  match body with
  | VDict m =>
      title ← required m "title" validate_str;
      description ← with_default m "description" (optional validate_str) None;
      price ← required m "price" validate_float ≫= ge_0;
      category ← required m "category" validate_str;
      in_stock ← with_default m "in_stock" validate_bool true;
      image ← with_default m "image" (optional validate_str) None;
      rating ← with_default m "rating" (optional validate_float) (Some (float_lit 0 0));
      Some {| cp_title := title; cp_description := description; cp_price := price;
              cp_category := category; cp_in_stock := in_stock; cp_image := image;
              cp_rating := rating |}
  | _ => None
  end.

(** [payload.model_dump()]. *)
Definition CreateProduct_model_dump (p : CreateProduct) : gmap string value :=
  {[ "title" := VStr (cp_title p);
     "description" := opt_str (cp_description p);
     "price" := VFloat (cp_price p);
     "category" := VStr (cp_category p);
     "in_stock" := VBool (cp_in_stock p);
     "image" := opt_str (cp_image p);
     "rating" := opt_float (cp_rating p) ]}.

(** The [Product] schema of schemas.py: the same fields, the rating bounded. *)
Definition validate_Product (body : value) : option CreateProduct :=
  match body with
  | VDict m =>
      title ← required m "title" validate_str;
      description ← with_default m "description" (optional validate_str) None;
      price ← required m "price" validate_float ≫= ge_0;
      category ← required m "category" validate_str;
      in_stock ← with_default m "in_stock" validate_bool true;
      image ← with_default m "image" (optional validate_str) None;
      rating ← with_default m "rating"
                 (optional (fun v => (validate_float v ≫= ge_0) ≫= le_5))
                 (Some (float_lit 0 0));
      Some {| cp_title := title; cp_description := description; cp_price := price;
              cp_category := category; cp_in_stock := in_stock; cp_image := image;
              cp_rating := rating |}
  | _ => None
  end.

Record ProductOut := {
  po_id : string;
  po_title : string;
  po_description : option string;
  po_price : float;
  po_category : string;
  po_in_stock : bool;
  po_image : option string;
  po_rating : option float;
}.

(** *** Order models (main.py) *)

Record OrderItem := {
  oi_product_id : string;
  oi_title : string;
  oi_quantity : Z;
  oi_price : float;
}.

Definition validate_OrderItem (v : value) : option OrderItem :=
  match v with
  | VDict m =>
      product_id ← required m "product_id" validate_str;
      title ← required m "title" validate_str;
      quantity ← required m "quantity" validate_int ≫= ge_1;
      price ← required m "price" validate_float ≫= ge_0;
      Some {| oi_product_id := product_id; oi_title := title;
              oi_quantity := quantity; oi_price := price |}
  | _ => None
  end.

Definition OrderItem_model_dump (it : OrderItem) : value :=
  VDict {[ "product_id" := VStr (oi_product_id it);
           "title" := VStr (oi_title it);
           "quantity" := VInt (oi_quantity it);
           "price" := VFloat (oi_price it) ]}.

Record CreateOrder := {
  co_customer_name : string;
  co_customer_email : string;
  co_shipping_address : string;
  co_items : list OrderItem;
}.

(** [List[OrderItem]]. *)
Definition validate_items (v : value) : option (list OrderItem) :=
  match v with
  | VList l => mapM validate_OrderItem l
  | _ => None
  end.

Definition validate_CreateOrder (body : value) : option CreateOrder :=
  match body with
  | VDict m =>
      customer_name ← required m "customer_name" validate_str;
      customer_email ← required m "customer_email" validate_str;
      shipping_address ← required m "shipping_address" validate_str;
      items ← required m "items" validate_items;
      Some {| co_customer_name := customer_name; co_customer_email := customer_email;
              co_shipping_address := shipping_address; co_items := items |}
  | _ => None
  end.

Record OrderOut := {
  oo_id : string;
  oo_order_number : string;
  oo_total_amount : float;
  oo_items : list OrderItem;
  oo_status : string;
  oo_created_at : datetime;
}.

(** *** Builtins on stored values *)

(** [d.get(k)] and [d.get(k, default)]. *)
Definition get (d : gmap string value) (k : string) : value :=
  default VNone (d !! k).

Definition get_default (d : gmap string value) (k : string) (dflt : value) : value :=
  default dflt (d !! k).

(** [float(v)]. *)
Definition py_float (v : value) : result float :=
  match v with
  | VFloat x => Ok x
  | VInt n => of_option OverflowError (float_of_int n)
  | VBool b => of_option OverflowError (float_of_int (if b then 1 else 0))
  | VStr s => of_option ValueError (float_of_str s)
  | _ => Err (Unhandled TypeError)
  end.

(** [bool(v)]. *)
Definition py_bool (v : value) : bool :=
  match v with
  | VNone => false
  | VBool b => b
  | VInt n => negb (n =? 0)
  | VFloat x => fnonzero x
  | VStr s => negb (String.eqb s "")
  | VDatetime _ => true
  | VList l => match l with [] => false | _ => true end
  | VDict d => match map_to_list d with [] => false | _ => true end
  end.

Definition is_None (v : value) : bool :=
  match v with VNone => true | _ => false end.

(** *** The world of a request *)

(** A stored document: the store gives every document an [_id]; [fields]
    are its other keys. *)
Record document := {
  _id : oid;
  fields : gmap string value;
}.

(** [db] is the handle of database.py ([None] when the connection is not
    configured), a database being its collections by name; [tick] counts the
    readings of the environment, [store_calls] the calls made to the store. *)
Record world := {
  db : option (gmap string (list document));
  tick : nat;
  store_calls : nat;
}.

Definition M (A : Type) : Type := world -> result A * world.

#[export] Instance M_ret : MRet M := fun A a w => (Ok a, w).
#[export] Instance M_bind : MBind M := fun A B k c w =>
  match c w with
  | (Ok a, w') => k a w'
  | (Err f, w') => (Err f, w')
  end.

Definition raise {A} (f : failure) : M A := fun w => (Err f, w).

Definition lift {A} (r : result A) : M A := fun w => (r, w).

Definition get_db : M (option (gmap string (list document))) :=
  fun w => (Ok (db w), w).

(** [datetime.utcnow()]. *)
Definition datetime_utcnow : M datetime :=
  fun w => (Ok (utcnow (tick w)),
            {| db := db w; tick := S (tick w); store_calls := store_calls w |}).

(** *** The store (pymongo) *)

Definition collection (s : gmap string (list document)) (name : string) : list document :=
  default [] (s !! name).

(** The conditions the handlers put in a filter; a filter is their
    conjunction. *)
Inductive cond :=
| Regex (field pattern : string)
| Equals (field : string) (s : string)
| IdEquals (id : oid).

(** A condition on a string holds of a field that is such a string, or an
    array with such a string among its elements. *)
Definition str_match (p : string -> bool) (v : option value) : bool :=
  match v with
  | Some (VStr s) => p s
  | Some (VList l) => existsb (fun x => match x with VStr s => p s | _ => false end) l
  | _ => false
  end.

Definition compile_cond (c : cond) : option (document -> bool) :=
  match c with
  | Regex f p => m ← regex_compile p; Some (fun d => str_match m (fields d !! f))
  | Equals f s => Some (fun d => str_match (String.eqb s) (fields d !! f))
  | IdEquals o => Some (fun d => bool_decide (_id d = o))
  end.

Definition compile_filter (q : list cond) : option (document -> bool) :=
  ps ← mapM compile_cond q; Some (fun d => forallb (fun p => p d) ps).

(** The key of [sort("created_at", -1)].  A date is the greatest of the
    types a document of this service holds, so dates come first, the latest
    at the head; the documents without a date follow. *)
Definition created_at_key (d : document) : list Z :=
  match fields d !! "created_at" with
  | Some (VDatetime t) => 1 :: datetime_key t
  | _ => [0]
  end.

Definition newest_first (d1 d2 : document) : Prop :=
  lex_leb (created_at_key d2) (created_at_key d1) = true.

#[export] Instance newest_first_dec d1 d2 : Decision (newest_first d1 d2) :=
  bool_eq_dec _ _.

(** [cursor.limit(n)]: 0 is no limit, a negative [n] bounds by [-n]. *)
Definition cursor_limit (n : Z) (l : list document) : list document :=
  if n =? 0 then l else take (Z.to_nat (Z.abs n)) l.

Definition called (w : world) : world :=
  {| db := db w; tick := tick w; store_calls := S (store_calls w) |}.

(** [list(db[name].find(q).sort("created_at", -1).limit(n))], the sort
    only when [sorted]; on an absent handle the attribute access fails. *)
Definition find (name : string) (q : list cond) (sorted : bool) (n : Z) : M (list document) :=
  fun w =>
    match db w with
    | None => (Err (Unhandled AttributeError), w)
    | Some s =>
        match compile_filter q with
        | None => (Err (Unhandled OperationFailure), called w)
        | Some p =>
            let found := filter (fun d => p d = true) (collection s name) in
            let found := if sorted then merge_sort newest_first found else found in
            (Ok (cursor_limit n found), called w)
        end
    end.

(** [db[name].find_one(q)]. *)
Definition find_one (name : string) (q : list cond) : M (option document) :=
  fun w =>
    match db w with
    | None => (Err (Unhandled AttributeError), w)
    | Some s =>
        match compile_filter q with
        | None => (Err (Unhandled OperationFailure), called w)
        | Some p => (Ok (head (filter (fun d => p d = true) (collection s name))), called w)
        end
    end.

(** [db[name].insert_one(data).inserted_id]: the document gets a new id and
    goes last in its collection. *)
Definition insert_one (name : string) (data : gmap string value) : M oid :=
  fun w =>
    match db w with
    | None => (Err (Unhandled AttributeError), w)
    | Some s =>
        let id := new_oid (tick w) in
        (Ok id,
         {| db := Some (<[name := (collection s name ++
                                     [{| _id := id; fields := data |}])%list]> s);
            tick := S (tick w);
            store_calls := S (store_calls w) |})
    end.

(** Modelled from the spec: [database.create_document], which main.py
    imports and whose source is not part of what is verified here.  The spec
    gives the gateway the contract insert-one(collectionName, document) -> id,
    has the stored order carry a creation timestamp ("created_at, set at
    creation") that the handler does not put in the document it passes, and
    has a gateway that is not configured refuse the call.  So: refuse
    without a handle, stamp [created_at], insert, answer the id as text. *)
Definition create_document (collection_name : string) (data : gmap string value) : M string :=
  handle ← get_db;
  match handle with
  | None => raise (Unhandled DatabaseNotAvailable)
  | Some _ =>
      now ← datetime_utcnow;
      inserted_id ← insert_one collection_name (<["created_at" := VDatetime now]> data);
      mret (oid_str inserted_id)
  end.

(** *** The handlers (main.py) *)

(** [ProductOut(id=..., title=..., ...)].  The price, the stock flag and the
    rating reach the model converted by [float] and [bool]; the other fields
    are validated as they come out of the document. *)
Definition ProductOut_init (id : string) (title description : value) (price : float)
    (category : value) (in_stock : bool) (image : value) (rating : float)
    : result ProductOut :=
  of_option ValidationError
    (title ← validate_str title;
     description ← optional validate_str description;
     category ← validate_str category;
     image ← optional validate_str image;
     Some {| po_id := id; po_title := title; po_description := description;
             po_price := price; po_category := category; po_in_stock := in_stock;
             po_image := image; po_rating := Some rating |}).

(** The mapping from a stored document to the output model, written twice
    in main.py (in [list_products] and in [get_product]) with the same text. *)
Definition product_out (d : document) : result ProductOut :=
  let doc := fields d in
  price ← py_float (get_default doc "price" (VInt 0));
  rating ← (if negb (is_None (get doc "rating"))
            then py_float (get_default doc "rating" (VFloat (float_lit 0 0)))
            else Ok (float_lit 0 0));
  ProductOut_init (oid_str (_id d)) (get doc "title") (get doc "description") price
    (get_default doc "category" (VStr "General"))
    (py_bool (get_default doc "in_stock" (VBool true)))
    (get doc "image") rating.

(** [if q:] on an [Optional[str]]: [None] and the empty string are false. *)
Definition truthy (o : option string) : option string :=
  match o with
  | Some s => if String.eqb s "" then None else Some s
  | None => None
  end.

Definition filter_query (q category : option string) : list cond :=
  (match truthy q with Some p => [Regex "title" p] | None => [] end ++
   match truthy category with Some c => [Equals "category" c] | None => [] end)%list.

(** GET /products; a parameter left out of the query is [None]. *)
Definition list_products (q category : option string) (limit : option Z)
    : M (list ProductOut) :=
  let limit := default 50 limit in
  handle ← get_db;
  match handle with
  | None => raise (HTTPException 500 "Database not configured")
  | Some _ =>
      docs ← find "product" (filter_query q category) false limit;
      lift (mapM product_out docs)
  end.

(** POST /products; the answer is [{"id": inserted_id}]. *)
Definition create_product (body : value) : M string :=
  match validate_CreateProduct body with
  | None => raise RequestValidationError
  | Some payload =>
      let product_dict := CreateProduct_model_dump payload in
      inserted_id ← create_document "product" product_dict;
      mret inserted_id
  end.

(** GET /products/{product_id}. *)
Definition get_product (product_id : string) : M ProductOut :=
  if negb (is_valid product_id) then raise (HTTPException 400 "Invalid product id")
  else
    doc ← find_one "product" [IdEquals (ObjectId product_id)];
    match doc with
    | None => raise (HTTPException 404 "Product not found")
    | Some d => lift (product_out d)
    end.

(** [it.price * it.quantity]: the int is converted to a float first. *)
Definition item_amount (it : OrderItem) : result float :=
  quantity ← of_option OverflowError (float_of_int (oi_quantity it));
  mret (fmul (oi_price it) quantity).

(** The document [create_order] hands to the store. *)
Definition order_doc (payload : CreateOrder) (total : float) (order_number : string)
    : gmap string value :=
  {[ "customer_name" := VStr (co_customer_name payload);
     "customer_email" := VStr (co_customer_email payload);
     "shipping_address" := VStr (co_shipping_address payload);
     "items" := VList (OrderItem_model_dump <$> co_items payload);
     "total_amount" := VFloat total;
     "order_number" := VStr order_number;
     "status" := VStr "pending" ]}.

(** POST /orders. *)
Definition create_order (body : value) : M OrderOut :=
  match validate_CreateOrder body with
  | None => raise RequestValidationError
  | Some payload =>
      if (length (co_items payload) =? 0)%nat
      then raise (HTTPException 400 "Order must contain at least one item")
      else
        amounts ← lift (mapM item_amount (co_items payload));
        let total := py_sum amounts in
        now ← datetime_utcnow;
        let order_number := ("ORD-" ++ strftime now)%string in
        inserted_id ← create_document "order" (order_doc payload total order_number);
        created_at ← datetime_utcnow;
        mret {| oo_id := inserted_id; oo_order_number := order_number;
                oo_total_amount := total; oo_items := co_items payload;
                oo_status := "pending"; oo_created_at := created_at |}
  end.

(** One entry of the answer of GET /orders. *)
Definition order_summary (d : document) : gmap string value :=
  {[ "id" := VStr (oid_str (_id d));
     "order_number" := get (fields d) "order_number";
     "total_amount" := get (fields d) "total_amount";
     "status" := get (fields d) "status";
     "created_at" := get (fields d) "created_at" ]}.

(** GET /orders; the answer is [{"orders": results}]. *)
Definition list_orders (limit : option Z) : M (list (gmap string value)) :=
  let limit := default 20 limit in
  handle ← get_db;
  match handle with
  | None => raise (HTTPException 500 "Database not configured")
  | Some _ =>
      cursor ← find "order" [] true limit;
      mret (order_summary <$> cursor)
  end.

(** An entry of the sample of [seed_products]: a dict literal with these
    seven keys. *)
Record sample_product := {
  sp_title : string;
  sp_description : string;
  sp_price : float;
  sp_category : string;
  sp_in_stock : bool;
  sp_image : string;
  sp_rating : float;
}.

Definition sample_dict (p : sample_product) : gmap string value :=
  {[ "title" := VStr (sp_title p);
     "description" := VStr (sp_description p);
     "price" := VFloat (sp_price p);
     "category" := VStr (sp_category p);
     "in_stock" := VBool (sp_in_stock p);
     "image" := VStr (sp_image p);
     "rating" := VFloat (sp_rating p) ]}.

Definition sample : list sample_product :=
  [ {| sp_title := "Wireless Headphones";
       sp_description := "Noise-cancelling over-ear headphones with 30h battery.";
       sp_price := float_lit 9999 (-2);
       sp_category := "Electronics";
       sp_in_stock := true;
       sp_image := "https://images.unsplash.com/photo-1518443881150-2f81e7a0f34b?w=800&q=80";
       sp_rating := float_lit 45 (-1) |};
    {| sp_title := "Smart Watch";
       sp_description := "Fitness tracking, heart rate monitor, and notifications.";
       sp_price := float_lit 14999 (-2);
       sp_category := "Wearables";
       sp_in_stock := true;
       sp_image := "https://images.unsplash.com/photo-1511732351157-1865efcb7b7b?w=800&q=80";
       sp_rating := float_lit 42 (-1) |};
    {| sp_title := "Running Shoes";
       sp_description := "Lightweight and comfortable shoes for daily runs.";
       sp_price := float_lit 7999 (-2);
       sp_category := "Footwear";
       sp_in_stock := true;
       sp_image := "https://images.unsplash.com/photo-1525966222134-fcfa99b8ae77?w=800&q=80";
       sp_rating := float_lit 46 (-1) |};
    {| sp_title := "Backpack";
       sp_description := "Durable backpack with laptop compartment.";
       sp_price := float_lit 5999 (-2);
       sp_category := "Accessories";
       sp_in_stock := true;
       sp_image := "https://images.unsplash.com/photo-1514477917009-389c76a86b68?w=800&q=80";
       sp_rating := float_lit 41 (-1) |} ].

(** The loop of [seed_products] over the entries still to visit. *)
Fixpoint seed_loop (ps : list sample_product) (inserted : nat) : M nat :=
  match ps with
  | [] => mret inserted
  | p :: ps' =>
      existing ← find_one "product" [Equals "title" (sp_title p)];
      match existing with
      | None =>
          _ ← create_document "product" (sample_dict p);
          seed_loop ps' (S inserted)
      | Some _ => seed_loop ps' inserted
      end
  end.

(** POST /seed; the answer is [{"inserted": inserted}]. *)
Definition seed_products : M nat :=
  handle ← get_db;
  match handle with
  | None => raise (HTTPException 500 "Database not configured")
  | Some _ => seed_loop sample 0%nat
  end.

(** *** Notions the properties are stated with *)

(** The body with one more key, as a client may send it. *)
Definition with_key (k : string) (v : value) (body : value) : value :=
  match body with
  | VDict m => VDict (<[k := v]> m)
  | _ => body
  end.

(** The cases in which [product_out] puts a default in place of what the
    document holds: the [get] with a default on an absent key (price,
    category, in_stock) and the [else] of the rating, taken when
    [d.get("rating")] is [None]. *)
Definition uses_fallback (doc : gmap string value) : bool :=
  bool_decide (doc !! "price" = None) || bool_decide (doc !! "category" = None)
  || bool_decide (doc !! "in_stock" = None) || is_None (get doc "rating").

(** A stored product that [product_out] maps: the title is a string, and
    each other field is absent or of the type its conversion takes. *)
Definition str_or_absent (v : option value) : Prop :=
  v = None \/ exists s, v = Some (VStr s).

Definition opt_str_or_absent (v : option value) : Prop :=
  v = None \/ v = Some VNone \/ exists s, v = Some (VStr s).

Definition float_or_absent (v : option value) : Prop :=
  v = None \/ exists x y, v = Some x /\ py_float x = Ok y.

Definition opt_float_or_absent (v : option value) : Prop :=
  v = None \/ v = Some VNone \/ exists x y, v = Some x /\ py_float x = Ok y.

Definition mappable (doc : gmap string value) : Prop :=
  (exists title, doc !! "title" = Some (VStr title)) /\
  opt_str_or_absent (doc !! "description") /\
  float_or_absent (doc !! "price") /\
  str_or_absent (doc !! "category") /\
  opt_str_or_absent (doc !! "image") /\
  opt_float_or_absent (doc !! "rating").

(** What the filters of [list_products] select, read off the query
    parameters: the text query is a regular expression searched in the
    title, the category is compared for equality, and a parameter that is
    absent or empty selects everything. *)
Definition title_filter (q : option string) : option (document -> bool) :=
  match truthy q with
  | None => Some (fun _ => true)
  | Some pattern =>
      m ← regex_compile pattern; Some (fun d => str_match m (fields d !! "title"))
  end.

Definition category_filter (category : option string) (d : document) : bool :=
  match truthy category with
  | None => true
  | Some c => str_match (String.eqb c) (fields d !! "category")
  end.

Definition selected (q category : option string) : option (document -> bool) :=
  t ← title_filter q; Some (fun d => t d && category_filter category d).

(** A product with this title, as [find_one({"title": title})] finds it. *)
Definition has_title (title : string) (d : document) : Prop :=
  str_match (String.eqb title) (fields d !! "title") = true.

#[export] Instance has_title_dec title d : Decision (has_title title d) :=
  bool_eq_dec _ _.

(** The entries of the sample that no product of the collection matches. *)
Definition missing (coll : list document) (ps : list sample_product) : list sample_product :=
  filter (fun p => ~ Exists (has_title (sp_title p)) coll) ps.

(** The database with [new] products after those it has. *)
Definition store_with (s : gmap string (list document)) (new : list document)
    : gmap string (list document) :=
  match new with
  | [] => s
  | _ => <["product" := (collection s "product" ++ new)%list]> s
  end.

(** What a run of [seed_products] makes of the database [s]: one more
    product for each entry that was missing, holding the entry's keys. *)
Definition seeded (s s' : gmap string (list document)) (ps : list sample_product) : Prop :=
  exists new,
    s' = store_with s new /\
    Forall2 (fun p d => sample_dict p ⊆ fields d) (missing (collection s "product") ps) new.



End Model.

(** ** Further notions *)

Section Reading.
Context `{PyFloat} `{Mongo} `{!Pydantic} `{!Env}.

(** Every product of the database is one that [product_out] maps. *)
Definition readable (s : gmap string (list document)) : Prop :=
  Forall (fun d => mappable (fields d)) (collection s "product").
End Reading.

(** Two clock readings within one second. *)
Definition same_second (t1 t2 : datetime) : Prop :=
  year t1 = year t2 /\ month t1 = month t2 /\ day t1 = day t2 /\
  hour t1 = hour t2 /\ minute t1 = minute t2 /\ second t1 = second t2.

(** ** The diagnostic endpoint *)

Section Diagnostics.
Context `{PyFloat} `{Mongo}.

(** What [db.list_collection_names()] comes to: the names, or an exception
    with its text. *)
Inductive listing :=
| Names (names : list string)
| Raises (message : string).

(** What [test_database] reads besides the handle: the name the handle
    carries, if it has the attribute, the answer of the server to the
    listing, and the variables of the process. *)
Class Deployment := {
  database_name : option string;
  list_collection_names : gmap string (list document) -> listing;
  getenv : string -> option string;
}.

Context `{!Deployment}.

(** A byte that continues a character of a string in UTF-8. *)
Definition continuation (c : ascii) : bool :=
  let n := N_of_ascii c in (128 <=? n)%N && (n <? 192)%N.

(** [len(s)]: the characters of [s], one for each byte that starts one. *)
Fixpoint len (s : string) : nat :=
  match s with
  | EmptyString => 0
  | String c s' => if continuation c then len s' else S (len s')
  end.

(** [s[:n]]: the first [n] characters. *)
Fixpoint slice_to (n : nat) (s : string) : string :=
  match s with
  | EmptyString => EmptyString
  | String c s' =>
      if continuation c then String c (slice_to n s')
      else match n with
           | O => EmptyString
           | S n' => String c (slice_to n' s')
           end
  end.

(** GET /test.  The listing is the call that can fail, and the inner
    handler takes it; the other statements of the outer [try] (the test of
    an attribute, its reading, a slice, assignments) raise nothing, which
    leaves the outer handler without a case. *)
Definition test_database : M (gmap string value) :=
  fun w =>
    let response : gmap string value :=
      {[ "backend" := VStr "✅ Running";
         "database" := VStr "❌ Not Available";
         "database_url" := VNone;
         "database_name" := VNone;
         "connection_status" := VStr "Not Connected";
         "collections" := VList [] ]} in
    let '(response, w) :=
      match db w with
      | Some s =>
          let response := <["database" := VStr "✅ Available"]> response in
          let response := <["database_url" := VStr "✅ Configured"]> response in
          let response :=
            <["database_name" := VStr (default "✅ Connected" database_name)]>
              response in
          let response := <["connection_status" := VStr "Connected"]> response in
          match list_collection_names s with
          | Names collections =>
              let response :=
                <["collections" := VList (VStr <$> take 10 collections)]> response in
              (<["database" := VStr "✅ Connected & Working"]> response, called w)
          | Raises e =>
              (<["database" := VStr ("⚠️  Connected but Error: " ++ slice_to 50 e)]>
                 response, called w)
          end
      | None =>
          (<["database" := VStr "⚠️  Available but not initialized"]> response, w)
      end in
    let response :=
      <["database_url" :=
          VStr (match truthy (getenv "DATABASE_URL") with
                | Some _ => "✅ Set"
                | None => "❌ Not Set"
                end)]>
        response in
    let response :=
      <["database_name" :=
          VStr (match truthy (getenv "DATABASE_NAME") with
                | Some _ => "✅ Set"
                | None => "❌ Not Set"
                end)]>
        response in
    (Ok response, w).
End Diagnostics.

(** ** A concrete instance

    Binary64 floats as the kernel computes them, the validators on inputs
    that need no coercion, ids of 24 hexadecimal digits, and a regular
    expression engine for patterns made of literal characters and the dot.
    It serves to run the handlers on examples. *)

Module Demo.

(** The float nearest to an integer (ties to even). *)
Definition of_Z (n : Z) : PrimFloat.float :=
  FloatOps.SF2Prim (SpecFloat.binary_normalize FloatOps.prec FloatOps.emax n 0 false).

(** Decimal literals: exact for a mantissa and a power of ten that are
    floats themselves, as are all those written below. *)
Definition lit (m e : Z) : PrimFloat.float :=
  if 0 <=? e then of_Z (m * 10 ^ e) else PrimFloat.div (of_Z m) (of_Z (10 ^ (- e))).

Definition of_int (n : Z) : option PrimFloat.float :=
  let x := of_Z n in if PrimFloat.is_infinity x then None else Some x.

Fixpoint digits_value (s : string) (acc : Z) : option Z :=
  match s with
  | EmptyString => Some acc
  | String c s' =>
      if is_digit c then digits_value s' (10 * acc + (Z.of_N (N_of_ascii c) - 48))
      else None
  end.

Fixpoint split_dot (s : string) : string * option string :=
  match s with
  | EmptyString => (EmptyString, None)
  | String c s' =>
      if Ascii.eqb c "." then (EmptyString, Some s')
      else let '(a, b) := split_dot s' in (String c a, b)
  end.

(** [float(s)] on the plain spellings [123] and [123.45], with a sign. *)
Definition of_unsigned (s : string) : option PrimFloat.float :=
  match split_dot s with
  | (EmptyString, _) => None
  | (a, None) => n ← digits_value a 0; of_int n
  | (_, Some EmptyString) => None
  | (a, Some b) =>
      n ← digits_value (a ++ b)%string 0; Some (lit n (- Z.of_nat (String.length b)))
  end.

Definition of_str (s : string) : option PrimFloat.float :=
  match s with
  | String "-" s' => PrimFloat.opp <$> of_unsigned s'
  | _ => of_unsigned s
  end.

(** [sum(l)] adding from the left, starting from 0. *)
Definition sum_left (l : list PrimFloat.float) : PrimFloat.float :=
  fold_left PrimFloat.add l (of_Z 0).

Definition float64 : PyFloat :=
  {| float := PrimFloat.float;
     float_lit := lit;
     float_of_int := of_int;
     float_of_str := of_str;
     fmul := PrimFloat.mul;
     fle := PrimFloat.leb;
     fnonzero := fun x => negb (PrimFloat.eqb x (of_Z 0));
     py_sum := sum_left;
     float_of_int_0 := eq_refl |}.

Definition is_hex (c : ascii) : bool :=
  let n := N_of_ascii c in
  ((48 <=? n) && (n <=? 57) || (65 <=? n) && (n <=? 70) || (97 <=? n) && (n <=? 102))%N.

Fixpoint string_forall (p : ascii -> bool) (s : string) : bool :=
  match s with
  | EmptyString => true
  | String c s' => p c && string_forall p s'
  end.

Fixpoint string_map (f : ascii -> ascii) (s : string) : string :=
  match s with
  | EmptyString => EmptyString
  | String c s' => String (f c) (string_map f s')
  end.

Definition is_meta (c : ascii) : bool :=
  existsb (Ascii.eqb c)
    ["\"; "^"; "$"; "|"; "?"; "*"; "+"; "("; ")"; "["; "]"; "{"; "}"]%char.

Definition newline : ascii := ascii_of_N 10.

(** The pattern matches at the head of the subject, letters in any case. *)
Fixpoint match_here (p s : string) : bool :=
  match p, s with
  | EmptyString, _ => true
  | String _ _, EmptyString => false
  | String c p', String x s' =>
      (if Ascii.eqb c "." then negb (Ascii.eqb x newline)
       else Ascii.eqb (lower c) (lower x))
      && match_here p' s'
  end.

(** The pattern matches somewhere in the subject. *)
Fixpoint search (p s : string) : bool :=
  match_here p s ||
  match s with
  | EmptyString => false
  | String _ s' => search p s'
  end.

(** The engine runs the patterns it knows and no other: one with another
    metacharacter is turned down. *)
Definition dot_regex (p : string) : option (string -> bool) :=
  if string_forall (fun c => negb (is_meta c)) p then Some (search p) else None.

Definition hex24 : Mongo :=
  {| oid := string;
     is_valid := fun s => (String.length s =? 24)%nat && string_forall is_hex s;
     ObjectId := string_map lower;
     oid_str := fun o => o;
     regex_compile := dot_regex |}.

Definition strict_float (v : @value float64) : option PrimFloat.float :=
  match v with
  | VFloat x => Some x
  | VInt n => of_int n
  | _ => None
  end.

Definition validators : @Pydantic float64 :=
  {| validate_str := fun v => match v with VStr s => Some s | _ => None end;
     validate_float := strict_float;
     validate_int := fun v => match v with VInt n => Some n | _ => None end;
     validate_bool := fun v => match v with VBool b => Some b | _ => None end;
     validate_str_str := fun _ => eq_refl;
     validate_str_None := eq_refl |}.

(** A clock that starts on 2024-03-09 at 07:05:00 and advances a second
    with every reading of the environment; the ids count up. *)
Definition clock (n : nat) : datetime :=
  {| year := 2024; month := 3; day := 9; hour := 7;
     minute := 5 + Z.of_nat n / 60; second := Z.of_nat n mod 60;
     microsecond := 0 |}.

Definition counting_oid (n : nat) : @oid hex24 := zfill 24 (decimal (Z.of_nat n)).

Definition stepping : @Env hex24 :=
  {| utcnow := clock; new_oid := counting_oid |}.

#[local] Existing Instances float64 hex24 validators stepping.

(** Worlds and requests to run the handlers on. *)
Definition unconfigured : world := {| db := None; tick := 0; store_calls := 0 |}.

Definition empty_store : world := {| db := Some ∅; tick := 0; store_calls := 0 |}.

(** POST /products [{title: "Mug", price: 9.99, category: "Home"}]. *)
Definition mug : value :=
  VDict {[ "title" := VStr "Mug"; "price" := VFloat (lit 999 (-2));
           "category" := VStr "Home" ]}.

Definition mug_payload : CreateProduct :=
  {| cp_title := "Mug"; cp_description := None; cp_price := lit 999 (-2);
     cp_category := "Home"; cp_in_stock := true; cp_image := None;
     cp_rating := Some (lit 0 0) |}.

(** The same request with [rating: 7.5], and with [rating: null]. *)
Definition overrated_mug : value := with_key "rating" (VFloat (lit 75 (-1))) mug.

Definition unrated_mug : value := with_key "rating" VNone mug.

(** What the store holds of these three requests when each is the first
    the service receives, and what the first reads back as. *)
Definition stored (payload : CreateProduct) : document :=
  {| _id := counting_oid 1;
     fields := <["created_at" := VDatetime (clock 0)]> (CreateProduct_model_dump payload) |}.

Definition mug_doc : document := stored mug_payload.

Definition overrated_doc : document :=
  stored {| cp_title := "Mug"; cp_description := None; cp_price := lit 999 (-2);
            cp_category := "Home"; cp_in_stock := true; cp_image := None;
            cp_rating := Some (lit 75 (-1)) |}.

Definition unrated_doc : document :=
  stored {| cp_title := "Mug"; cp_description := None; cp_price := lit 999 (-2);
            cp_category := "Home"; cp_in_stock := true; cp_image := None;
            cp_rating := None |}.

Definition mug_out : ProductOut :=
  {| po_id := "000000000000000000000001"; po_title := "Mug"; po_description := None;
     po_price := lit 999 (-2); po_category := "Home"; po_in_stock := true;
     po_image := None; po_rating := Some (lit 0 0) |}.

(** The store after the mug was created in the empty one. *)
Definition mug_store : world := (create_product mug empty_store).2.

(** A stored product that has a price and a category and no title. *)
Definition untitled : document :=
  {| _id := counting_oid 7;
     fields := {[ "price" := VFloat (lit 999 (-2)); "category" := VStr "Home" ]} |}.

(** A bare product: a title and nothing else. *)
Definition bare : document :=
  {| _id := counting_oid 8; fields := {[ "title" := VStr "Mug" ]} |}.

(** POST /orders for two mugs, the client adding a total of its own. *)
Definition two_mugs : value :=
  VDict {[ "customer_name" := VStr "A"; "customer_email" := VStr "a@b.com";
           "shipping_address" := VStr "X";
           "items" := VList [VDict {[ "product_id" := VStr "p1"; "title" := VStr "Mug";
                                      "quantity" := VInt 2;
                                      "price" := VFloat (lit 999 (-2)) ]}];
           "total_amount" := VFloat (lit 1 0) ]}.

Definition two_mugs_payload : CreateOrder :=
  {| co_customer_name := "A"; co_customer_email := "a@b.com";
     co_shipping_address := "X";
     co_items := [{| oi_product_id := "p1"; oi_title := "Mug"; oi_quantity := 2;
                     oi_price := lit 999 (-2) |}] |}.

(** What [sum] is taken of for that order: 9.99 * 2. *)
Definition two_mugs_amounts : list (@float float64) :=
  [PrimFloat.mul (lit 999 (-2)) (of_Z 2)].

(** An order without items, its other fields in order; and one without
    items and without the customer's name. *)
Definition empty_order : value :=
  VDict {[ "customer_name" := VStr "A"; "customer_email" := VStr "a@b.com";
           "shipping_address" := VStr "X"; "items" := VList [] ]}.

Definition empty_order_payload : CreateOrder :=
  {| co_customer_name := "A"; co_customer_email := "a@b.com";
     co_shipping_address := "X"; co_items := [] |}.

Definition nameless_empty_order : value :=
  VDict {[ "customer_email" := VStr "a@b.com"; "shipping_address" := VStr "X";
           "items" := VList [] ]}.

(** The mug with [rating: 4.5]. *)
Definition rated_mug : value := with_key "rating" (VFloat (lit 45 (-1))) mug.

Definition rated_mug_payload : CreateProduct :=
  {| cp_title := "Mug"; cp_description := None; cp_price := lit 999 (-2);
     cp_category := "Home"; cp_in_stock := true; cp_image := None;
     cp_rating := Some (lit 45 (-1)) |}.

(** POST /orders for more mugs than a float counts: 10 ^ 400 of them. *)
Definition countless_mugs : value :=
  VDict {[ "customer_name" := VStr "A"; "customer_email" := VStr "a@b.com";
           "shipping_address" := VStr "X";
           "items" := VList [VDict {[ "product_id" := VStr "p1"; "title" := VStr "Mug";
                                      "quantity" := VInt (10 ^ 400);
                                      "price" := VFloat (lit 999 (-2)) ]}] ]}.

Definition countless_mugs_payload : CreateOrder :=
  {| co_customer_name := "A"; co_customer_email := "a@b.com";
     co_shipping_address := "X";
     co_items := [{| oi_product_id := "p1"; oi_title := "Mug"; oi_quantity := 10 ^ 400;
                     oi_price := lit 999 (-2) |}] |}.

End Demo.

(** * Properties *)

(** ** Order numbers: [ORD-] and the digits of the time *)

Lemma length_append (s1 s2 : string) :
  String.length (s1 ++ s2)%string = (String.length s1 + String.length s2)%nat.
Proof. induction s1 as [|c s1 IH]; simpl; [reflexivity | now rewrite IH]. Qed.


(** Two strings with tails of one length are equal part by part. *)
Lemma append_inj (s1 s2 r1 r2 : string) :
  String.length r1 = String.length r2 ->
  (s1 ++ r1 = s2 ++ r2)%string -> s1 = s2 /\ r1 = r2.
Proof.
  intros Hl. revert s2. induction s1 as [|c s1 IH]; intros [|c' s2] E.
  - now split.
  - exfalso. apply (f_equal String.length) in E.
    change (String.length r1 = S (String.length (s2 ++ r2)%string)) in E.
    rewrite length_append in E. lia.
  - exfalso. apply (f_equal String.length) in E.
    change (S (String.length (s1 ++ r1)%string) = String.length r2) in E.
    rewrite length_append in E. lia.
  - change (String c (s1 ++ r1) = String c' (s2 ++ r2))%string in E.
    injection E as -> E. destruct (IH _ E) as [-> ->]. now split.
Qed.

Ltac euclid := Z.to_euclidean_division_equations; lia.

Lemma digit_inj (a b : Z) : 0 <= a < 10 -> 0 <= b < 10 -> digit a = digit b -> a = b.
Proof.
  intros Ha Hb E. unfold digit in E.
  apply (f_equal N_of_ascii) in E.
  rewrite !N_ascii_embedding in E by lia. lia.
Qed.


(** The last digit, and a step of the conversion before it. *)
Lemma decimal_aux_last (fuel : nat) (n : Z) (acc : string) :
  0 <= n < 10 -> decimal_aux (S fuel) n acc = String (digit n) acc.
Proof.
  intros Hn. cbn [decimal_aux]. rewrite Z.div_small, Z.mod_small by lia. reflexivity.
Qed.

Lemma decimal_aux_step (fuel : nat) (n : Z) (acc : string) :
  10 <= n ->
  decimal_aux (S fuel) n acc = decimal_aux fuel (n / 10) (String (digit (n mod 10)) acc).
Proof.
  intros Hn. cbn [decimal_aux]. destruct (Z.eqb_spec (n / 10) 0); [euclid | reflexivity].
Qed.

Lemma log2_fuel (n : Z) : 8 <= n -> exists f, Z.to_nat (Z.log2 n) = S (S (S f)).
Proof.
  intros Hn. pose proof (Z.log2_le_mono 8 n ltac:(lia)) as Hl.
  change (Z.log2 8) with 3 in Hl. exists (Z.to_nat (Z.log2 n) - 3)%nat. lia.
Qed.

(** [str(n)] digit by digit, for the numbers of one to four digits. *)
Lemma decimal_1 (n : Z) : 0 <= n < 10 -> decimal n = String (digit n) "".
Proof. intros Hn. unfold decimal. now apply decimal_aux_last. Qed.

Lemma decimal_2 (n : Z) :
  10 <= n < 100 -> decimal n = String (digit (n / 10)) (String (digit (n mod 10)) "").
Proof.
  intros Hn. unfold decimal. destruct (log2_fuel n) as [f ->]; [lia|].
  rewrite decimal_aux_step by lia. rewrite decimal_aux_last by euclid. reflexivity.
Qed.

Lemma decimal_3 (n : Z) :
  100 <= n < 1000 ->
  decimal n = String (digit (n / 100)) (String (digit (n / 10 mod 10))
                (String (digit (n mod 10)) "")).
Proof.
  intros Hn. unfold decimal. destruct (log2_fuel n) as [f ->]; [lia|].
  rewrite decimal_aux_step by lia. rewrite decimal_aux_step by euclid.
  rewrite decimal_aux_last by euclid.
  replace (n / 10 / 10) with (n / 100) by euclid. reflexivity.
Qed.

Lemma decimal_4 (n : Z) :
  1000 <= n < 10000 ->
  decimal n = String (digit (n / 1000)) (String (digit (n / 100 mod 10))
                (String (digit (n / 10 mod 10)) (String (digit (n mod 10)) ""))).
Proof.
  intros Hn. unfold decimal. destruct (log2_fuel n) as [f ->]; [lia|].
  rewrite decimal_aux_step by lia. rewrite decimal_aux_step by euclid.
  rewrite decimal_aux_step by euclid. rewrite decimal_aux_last by euclid.
  replace (n / 10 / 10 / 10) with (n / 1000) by euclid.
  replace (n / 10 / 10) with (n / 100) by euclid. reflexivity.
Qed.

(** A field of two positions. *)
Lemma two_digits (n : Z) :
  0 <= n < 100 ->
  zfill 2 (decimal n) = String (digit (n / 10)) (String (digit (n mod 10)) "").
Proof.
  intros Hn. destruct (Z.lt_ge_cases n 10) as [Hs|Hs].
  - rewrite decimal_1 by lia. rewrite Z.div_small, Z.mod_small by lia. reflexivity.
  - rewrite decimal_2 by lia. reflexivity.
Qed.


Ltac digits :=
  repeat match goal with
         | H : digit _ = digit _ |- _ => apply digit_inj in H; [|euclid..]
         end.

Lemma decimal_inj (a b : Z) :
  0 <= a < 10000 -> 0 <= b < 10000 -> decimal a = decimal b -> a = b.
Proof.
  intros Ha Hb.
  assert (a < 10 \/ 10 <= a < 100 \/ 100 <= a < 1000 \/ 1000 <= a) as [A|[A|[A|A]]] by lia;
  assert (b < 10 \/ 10 <= b < 100 \/ 100 <= b < 1000 \/ 1000 <= b) as [B|[B|[B|B]]] by lia;
  first [rewrite (decimal_1 a) by lia | rewrite (decimal_2 a) by lia
        | rewrite (decimal_3 a) by lia | rewrite (decimal_4 a) by lia];
  first [rewrite (decimal_1 b) by lia | rewrite (decimal_2 b) by lia
        | rewrite (decimal_3 b) by lia | rewrite (decimal_4 b) by lia];
  intros E; try discriminate E; injection E as E; intros; digits; euclid.
Qed.

(** The ten positions after the year. *)
Lemma strftime_fields (t : datetime) :
  valid_datetime t ->
  strftime t
  = (decimal (year t) ++
     String (digit (month t / 10)) (String (digit (month t mod 10))
     (String (digit (day t / 10)) (String (digit (day t mod 10))
     (String (digit (hour t / 10)) (String (digit (hour t mod 10))
     (String (digit (minute t / 10)) (String (digit (minute t mod 10))
     (String (digit (second t / 10)) (String (digit (second t mod 10))
      ""))))))))))%string.
Proof.
  intros (Hy & Hm & Hd & Hh & Hmi & Hs & _). unfold strftime.
  rewrite !two_digits by lia. reflexivity.
Qed.


Lemma strftime_inj (t1 t2 : datetime) :
  valid_datetime t1 -> valid_datetime t2 ->
  strftime t1 = strftime t2 -> same_second t1 t2.
Proof.
  intros V1 V2. rewrite (strftime_fields t1 V1), (strftime_fields t2 V2).
  destruct V1 as (Hy1 & Hm1 & Hd1 & Hh1 & Hmi1 & Hs1 & _).
  destruct V2 as (Hy2 & Hm2 & Hd2 & Hh2 & Hmi2 & Hs2 & _).
  intros E. apply append_inj in E as [Ey E]; [|reflexivity].
  apply decimal_inj in Ey; [|lia..].
  injection E as M1 M2 D1 D2 H1' H2' Mi1 Mi2 S1 S2.
  unfold same_second. digits. repeat split; euclid.
Qed.

(** ** The order of [sort("created_at", -1)] *)

Lemma lex_leb_total (k1 k2 : list Z) : lex_leb k1 k2 = true \/ lex_leb k2 k1 = true.
Proof.
  revert k2. induction k1 as [|x k1 IH]; intros [|y k2]; simpl; auto.
  destruct (IH k2) as [H|H]; rewrite H;
    destruct (Z.ltb_spec x y), (Z.ltb_spec y x), (Z.eqb_spec x y), (Z.eqb_spec y x);
    simpl; auto; lia.
Qed.

Lemma lex_leb_trans (k1 k2 k3 : list Z) :
  lex_leb k1 k2 = true -> lex_leb k2 k3 = true -> lex_leb k1 k3 = true.
Proof.
  revert k2 k3. induction k1 as [|x k1 IH]; intros [|y k2] [|z k3]; simpl; auto;
    try discriminate.
  intros H12 H23.
  apply orb_true_iff in H12 as [H12|H12]; apply orb_true_iff in H23 as [H23|H23];
    apply orb_true_iff.
  - left. apply Z.ltb_lt in H12, H23. apply Z.ltb_lt. lia.
  - apply andb_true_iff in H23 as [H23 _]. apply Z.eqb_eq in H23. subst. now left.
  - apply andb_true_iff in H12 as [H12 _]. apply Z.eqb_eq in H12. subst. now left.
  - apply andb_true_iff in H12 as [E12 L12]. apply andb_true_iff in H23 as [E23 L23].
    apply Z.eqb_eq in E12, E23. subst. right.
    rewrite Z.eqb_refl. simpl. eapply IH; eassumption.
Qed.

(** ** Lists *)

Lemma filter_none {A} (P : A -> Prop) `{forall x, Decision (P x)} (l : list A) :
  Forall (fun x => ~ P x) l -> filter P l = [].
Proof.
  induction 1 as [|x l Hx _ IH]; [reflexivity|].
  rewrite filter_cons. destruct (decide (P x)); [contradiction | exact IH].
Qed.

Lemma filter_all {A} (P : A -> Prop) `{forall x, Decision (P x)} (l : list A) :
  Forall P l -> filter P l = l.
Proof.
  induction 1 as [|x l Hx _ IH]; [reflexivity|].
  rewrite filter_cons. destruct (decide (P x)); [now rewrite IH | contradiction].
Qed.

Lemma filter_ext_elem {A} (P Q : A -> Prop) `{forall x, Decision (P x)}
    `{forall x, Decision (Q x)} (l : list A) :
  (forall x, x ∈ l -> P x <-> Q x) -> filter P l = filter Q l.
Proof.
  induction l as [|x l IH]; intros HPQ; [reflexivity|].
  rewrite !filter_cons.
  assert (Hl : filter P l = filter Q l).
  { apply IH. intros y Hy. apply HPQ. now right. }
  pose proof (HPQ x (list_elem_of_here _ _)) as Hx.
  destruct (decide (P x)), (decide (Q x)); rewrite Hl; tauto.
Qed.

Lemma head_filter_None {A} (P : A -> Prop) `{forall x, Decision (P x)} (l : list A) :
  head (filter P l) = None <-> ~ Exists P l.
Proof.
  induction l as [|x l IH]; simpl.
  - split; [intros _ Hex; inversion Hex | reflexivity].
  - rewrite filter_cons. destruct (decide (P x)) as [Hp|Hp]; simpl.
    + split; [discriminate | intros Hn; exfalso; apply Hn; now left].
    + rewrite IH. split; intros Hn Hex; apply Hn.
      * inversion Hex; subst; [contradiction | assumption].
      * now right.
Qed.

Lemma head_filter_unique {A B} `{EqDecision B} (key : A -> B) (P : A -> Prop)
    `{forall x, Decision (P x)} (l : list A) (a : A) :
  (forall x, P x <-> key x = key a) ->
  NoDup (key <$> l) -> a ∈ l -> head (filter P l) = Some a.
Proof.
  intros HP. induction l as [|x l IH]; intros Hnd Hin.
  - inversion Hin.
  - rewrite fmap_cons in Hnd. apply NoDup_cons in Hnd as [Hx Hnd].
    rewrite filter_cons. destruct (decide (P x)) as [Hp|Hp].
    + simpl. apply HP in Hp. apply elem_of_cons in Hin as [->|Hin]; [reflexivity|].
      exfalso. apply Hx. rewrite Hp. apply list_elem_of_fmap. eauto.
    + apply elem_of_cons in Hin as [->|Hin].
      * exfalso. apply Hp. now apply HP.
      * now apply IH.
Qed.

Lemma mapM_result_Forall2 {A B} (f : A -> result B) (l : list A) (k : list B) :
  Forall2 (fun x y => f x = Ok y) l k -> mapM f l = Ok k.
Proof.
  induction 1 as [|x y l k Hxy _ IH]; [reflexivity|].
  simpl. rewrite Hxy. simpl. rewrite IH. reflexivity.
Qed.

Lemma mapM_result_length {A B} (f : A -> result B) (l : list A) (k : list B) :
  mapM f l = Ok k -> length k = length l.
Proof.
  revert k. induction l as [|x l IH]; intros k; simpl.
  - intros [= <-]. reflexivity.
  - destruct (f x) as [y|e]; simpl; [|discriminate].
    destruct (mapM f l) as [k'|e]; simpl; [|discriminate].
    intros [= <-]. simpl. now rewrite (IH k').
Qed.


(** ** Handlers *)

Section Properties.
Context `{PyFloat} `{Mongo} `{!Pydantic} `{!Env}.

(** Unfolds the plumbing of the request monad. *)
Ltac run :=
  cbv [mbind M_bind mret M_ret raise lift get_db called] in *; simpl in *.

(** Closes [k ∉ l] for literal keys. *)
Ltac distinct_keys :=
  rewrite ?not_elem_of_cons; repeat split; try discriminate; apply not_elem_of_nil.

(** *** The store *)

Lemma create_document_run (name : string) (data : gmap string value)
    (s : gmap string (list document)) (t c : nat) :
  create_document name data {| db := Some s; tick := t; store_calls := c |}
  = (Ok (oid_str (new_oid (S t))),
     {| db := Some (<[name := (collection s name ++
                     [{| _id := new_oid (S t);
                         fields := <["created_at" := VDatetime (utcnow t)]> data |}])%list]> s);
        tick := S (S t); store_calls := S c |}).
Proof. reflexivity. Qed.

Lemma create_document_unconfigured (name : string) (data : gmap string value) (t c : nat) :
  create_document name data {| db := None; tick := t; store_calls := c |}
  = (Err (Unhandled DatabaseNotAvailable), {| db := None; tick := t; store_calls := c |}).
Proof. reflexivity. Qed.

Lemma find_one_title_run (title : string) (s : gmap string (list document)) (t c : nat) :
  find_one "product" [Equals "title" title] {| db := Some s; tick := t; store_calls := c |}
  = (Ok (head (filter (has_title title) (collection s "product"))),
     {| db := Some s; tick := t; store_calls := S c |}).
Proof.
  unfold find_one. simpl. do 3 f_equal. apply filter_ext_elem.
  intros d _. unfold has_title. simpl. now rewrite andb_true_r.
Qed.


(** *** Sorting by creation time *)

#[local] Instance newest_first_total : Total newest_first.
Proof.
  intros d1 d2. unfold newest_first.
  destruct (lex_leb_total (created_at_key d2) (created_at_key d1)); auto.
Qed.

#[local] Instance newest_first_trans : Transitive newest_first.
Proof.
  intros d1 d2 d3 H12 H23. unfold newest_first in *.
  eapply lex_leb_trans; eassumption.
Qed.




Lemma cursor_limit_length (n : Z) (l : list document) :
  n <> 0 -> (length (cursor_limit n l) <= Z.to_nat (Z.abs n))%nat.
Proof.
  intros Hn. unfold cursor_limit. destruct (Z.eqb_spec n 0); [contradiction|].
  rewrite length_take. lia.
Qed.

Lemma list_orders_run (limit : option Z) (s : gmap string (list document)) (t c : nat) :
  list_orders limit {| db := Some s; tick := t; store_calls := c |}
  = (Ok (order_summary <$>
           cursor_limit (default 20 limit) (merge_sort newest_first (collection s "order"))),
     {| db := Some s; tick := t; store_calls := S c |}).
Proof.
  unfold list_orders. run. unfold find. simpl.
  rewrite filter_all; [reflexivity|]. apply Forall_forall. intros; reflexivity.
Qed.



(** *** Products *)

Lemma optional_str_absent (doc : gmap string value) (k : string) :
  opt_str_or_absent (doc !! k) ->
  exists o, optional validate_str (get doc k) = Some o /\ (doc !! k = None -> o = None).
Proof.
  unfold get. intros [E|[E|(s & E)]]; rewrite E; simpl.
  - eauto.
  - exists None. split; [reflexivity | discriminate].
  - rewrite validate_str_str. simpl. exists (Some s). split; [reflexivity | discriminate].
Qed.

Lemma py_float_cases (v : value) :
  (exists x, py_float v = Ok x) \/ (exists e, py_float v = Err (Unhandled e)).
Proof.
  destruct v as [|b|n|x|s|t|l|m]; simpl; eauto;
    match goal with |- context [of_option _ ?o] => destruct o end; simpl; eauto.
Qed.

(** C3, as the code has it.  The mapping succeeds on every stored product
    whose title is a string and whose other fields are absent or of the type
    their conversion takes, and puts the defaults in place of absent
    fields: category "General", in_stock true, rating 0.0, price 0.0,
    description and image [None].  On a document without a title it fails:
    the output model requires one. *)
Theorem product_out_defaults (d : document) :
  (mappable (fields d) ->
   exists out, product_out d = Ok out /\
     po_id out = oid_str (_id d) /\
     fields d !! "title" = Some (VStr (po_title out)) /\
     (fields d !! "category" = None -> po_category out = "General") /\
     (fields d !! "in_stock" = None -> po_in_stock out = true) /\
     (fields d !! "rating" = None -> po_rating out = Some (float_lit 0 0)) /\
     (fields d !! "price" = None -> po_price out = float_lit 0 0) /\
     (fields d !! "description" = None -> po_description out = None) /\
     (fields d !! "image" = None -> po_image out = None)) /\
  (fields d !! "title" = None -> exists e, product_out d = Err (Unhandled e)).
Proof.
  unfold product_out. split.
  - intros ((title & Ht) & Hd & Hp & Hc & Hi & Hr).
    assert (exists price, py_float (get_default (fields d) "price" (VInt 0)) = Ok price /\
              (fields d !! "price" = None -> price = float_lit 0 0)) as (price & -> & Hprice).
    { unfold get_default. destruct Hp as [E|(x & y & E & Hy)]; rewrite E; simpl.
      - rewrite float_of_int_0. simpl. eauto.
      - rewrite Hy. exists y. split; [reflexivity | discriminate]. }
    assert (exists rating,
              (if negb (is_None (get (fields d) "rating"))
               then py_float (get_default (fields d) "rating" (VFloat (float_lit 0 0)))
               else Ok (float_lit 0 0)) = Ok rating /\
              (fields d !! "rating" = None -> rating = float_lit 0 0))
      as (rating & -> & Hrating).
    { unfold get, get_default. destruct Hr as [E|[E|(x & y & E & Hy)]]; rewrite E; simpl.
      - eauto.
      - exists (float_lit 0 0). split; [reflexivity | discriminate].
      - rewrite Hy. destruct x; simpl; try (exists y; split; [reflexivity | discriminate]).
        discriminate. }
    destruct (optional_str_absent _ _ Hd) as (description & Ed & Hdesc).
    destruct (optional_str_absent _ _ Hi) as (image & Ei & Himage).
    assert (exists category,
              validate_str (get_default (fields d) "category" (VStr "General")) = Some category /\
              (fields d !! "category" = None -> category = "General"))
      as (category & Ec & Hcat).
    { unfold get_default. destruct Hc as [E|(c & E)]; rewrite E; simpl;
        rewrite validate_str_str; eauto. exists c. split; [reflexivity | discriminate]. }
    assert (Et : validate_str (get (fields d) "title") = Some title).
    { unfold get. rewrite Ht. apply validate_str_str. }
    simpl. unfold ProductOut_init. rewrite Et. simpl. rewrite Ed. simpl.
    rewrite Ec. simpl. rewrite Ei. simpl.
    eexists. split; [reflexivity|]. simpl.
    repeat split; auto.
    + intros E. unfold get_default. now rewrite E.
    + intros E. now rewrite Hrating.
  - intros Ht.
    assert (Et : validate_str (get (fields d) "title") = None).
    { unfold get. rewrite Ht. apply validate_str_None. }
    destruct (py_float_cases (get_default (fields d) "price" (VInt 0)))
      as [(price & ->)|(e & ->)]; simpl; [|eauto].
    destruct (negb (is_None (get (fields d) "rating"))); simpl.
    + destruct (py_float_cases (get_default (fields d) "rating" (VFloat (float_lit 0 0))))
        as [(rating & ->)|(e & ->)]; simpl; [|eauto].
      unfold ProductOut_init. rewrite Et. simpl. eauto.
    + unfold ProductOut_init. rewrite Et. simpl. eauto.
Qed.

(** A price below zero is turned down before anything reaches the store. *)
Lemma create_product_negative_price (m : gmap string value) (x : float) (w : world) :
  (m !! "price" ≫= validate_float) = Some x ->
  fle (float_lit 0 0) x = false ->
  create_product (VDict m) w = (Err RequestValidationError, w).
Proof.
  intros Hx Hneg. unfold create_product, validate_CreateProduct, required.
  destruct (m !! "title" ≫= validate_str); simpl; [|reflexivity].
  destruct (with_default m "description" _ _); simpl; [|reflexivity].
  rewrite Hx. simpl. unfold ge_0. rewrite Hneg. reflexivity.
Qed.

Lemma validate_CreateProduct_defaults (m : gmap string value) (payload : CreateProduct) :
  validate_CreateProduct (VDict m) = Some payload ->
  (m !! "in_stock" = None -> cp_in_stock payload = true) /\
  (m !! "rating" = None -> cp_rating payload = Some (float_lit 0 0)) /\
  (m !! "description" = None -> cp_description payload = None) /\
  (m !! "image" = None -> cp_image payload = None).
Proof.
  unfold validate_CreateProduct, with_default. intros Hv.
  repeat split; intros E; rewrite E in Hv; simplify_option_eq; reflexivity.
Qed.

Lemma product_out_stored (id : oid) (payload : CreateProduct) (now : datetime) (x : float) :
  cp_rating payload = Some x ->
  product_out {| _id := id;
                 fields := <["created_at" := VDatetime now]> (CreateProduct_model_dump payload) |}
  = Ok {| po_id := oid_str id; po_title := cp_title payload;
          po_description := cp_description payload; po_price := cp_price payload;
          po_category := cp_category payload; po_in_stock := cp_in_stock payload;
          po_image := cp_image payload; po_rating := Some x |}.
Proof.
  intros Hr. unfold product_out, ProductOut_init, get, get_default. cbn [fields _id].
  set (doc := <["created_at" := VDatetime now]> (CreateProduct_model_dump payload)).
  replace (doc !! "price") with (Some (VFloat (cp_price payload))) by reflexivity.
  replace (doc !! "rating") with (Some (opt_float (cp_rating payload))) by reflexivity.
  replace (doc !! "title") with (Some (VStr (cp_title payload))) by reflexivity.
  replace (doc !! "description") with (Some (opt_str (cp_description payload)))
    by reflexivity.
  replace (doc !! "category") with (Some (VStr (cp_category payload))) by reflexivity.
  replace (doc !! "in_stock") with (Some (VBool (cp_in_stock payload))) by reflexivity.
  replace (doc !! "image") with (Some (opt_str (cp_image payload))) by reflexivity.
  rewrite Hr. cbn. rewrite !validate_str_str. cbn.
  destruct (cp_description payload), (cp_image payload); cbn;
    rewrite ?validate_str_str; reflexivity.
Qed.

(** C10, as the code has it.  The document Create Product writes holds the
    seven fields of the model, with [in_stock] true, [rating] 0.0 and
    [description], [image] null when the client leaves them out.  Reading it
    back takes a default exactly when the client sent [rating: null]; with a
    rating, the output gives back the stored values. *)
Theorem create_product_document (body : value) (payload : CreateProduct) (w : world)
    (s : gmap string (list document)) :
  validate_CreateProduct body = Some payload ->
  db w = Some s ->
  exists id d w',
    create_product body w = (Ok id, w') /\
    db w' = Some (<["product" := (collection s "product" ++ [d])%list]> s) /\
    fields d !! "title" = Some (VStr (cp_title payload)) /\
    fields d !! "description" = Some (opt_str (cp_description payload)) /\
    fields d !! "price" = Some (VFloat (cp_price payload)) /\
    fields d !! "category" = Some (VStr (cp_category payload)) /\
    fields d !! "in_stock" = Some (VBool (cp_in_stock payload)) /\
    fields d !! "image" = Some (opt_str (cp_image payload)) /\
    fields d !! "rating" = Some (opt_float (cp_rating payload)) /\
    (forall m, body = VDict m ->
       (m !! "in_stock" = None -> cp_in_stock payload = true) /\
       (m !! "rating" = None -> cp_rating payload = Some (float_lit 0 0)) /\
       (m !! "description" = None -> cp_description payload = None) /\
       (m !! "image" = None -> cp_image payload = None)) /\
    uses_fallback (fields d) = is_None (opt_float (cp_rating payload)) /\
    (forall x, cp_rating payload = Some x ->
       product_out d
       = Ok {| po_id := id; po_title := cp_title payload;
               po_description := cp_description payload; po_price := cp_price payload;
               po_category := cp_category payload; po_in_stock := cp_in_stock payload;
               po_image := cp_image payload; po_rating := Some x |}).
Proof.
  intros Hv Hs. destruct w as [handle t c]. simpl in Hs. subst handle.
  unfold create_product. rewrite Hv.
  change (let product_dict := CreateProduct_model_dump payload in
          inserted_id ← create_document "product" product_dict; mret inserted_id)
    with (inserted_id ← create_document "product" (CreateProduct_model_dump payload);
          mret inserted_id).
  unfold mbind at 1, M_bind at 1. rewrite create_document_run.
  eexists _, _, _. split; [reflexivity|]. split; [reflexivity|].
  do 7 (split; [reflexivity|]). split; [|split].
  - intros m ->. now apply validate_CreateProduct_defaults.
  - reflexivity.
  - intros x Hx. now apply product_out_stored.
Qed.

Lemma filter_query_selected (q category : option string) :
  match selected q category with
  | None => compile_filter (filter_query q category) = None
  | Some p => exists p', compile_filter (filter_query q category) = Some p' /\
                         forall d, p' d = p d
  end.
Proof.
  unfold selected, title_filter, category_filter, filter_query, compile_filter.
  destruct (truthy q) as [pattern|]; destruct (truthy category) as [c|]; simpl;
    try destruct (regex_compile pattern) as [m|]; simpl; try reflexivity;
    eexists; (split; [reflexivity|]); intros d; simpl;
    rewrite ?andb_true_r; reflexivity.
Qed.

Lemma list_products_rejected (q category : option string) (limit : option Z)
    (w : world) (s : gmap string (list document)) :
  db w = Some s -> selected q category = None ->
  list_products q category limit w = (Err (Unhandled OperationFailure), called w).
Proof.
  intros Hs Hsel. destruct w as [handle t c]. simpl in Hs. subst handle.
  pose proof (filter_query_selected q category) as Hq. rewrite Hsel in Hq.
  unfold list_products. run. unfold find. simpl. rewrite Hq. reflexivity.
Qed.

(** On a product whose title and category are strings, the selection is
    the match of the pattern on the title and the equality of the category. *)
Lemma selected_strings (q category : option string) (p : document -> bool)
    (d : document) (title c0 : string) :
  selected q category = Some p ->
  fields d !! "title" = Some (VStr title) ->
  fields d !! "category" = Some (VStr c0) ->
  p d = true <->
    (forall pattern, truthy q = Some pattern ->
       exists m, regex_compile pattern = Some m /\ m title = true) /\
    (forall c, truthy category = Some c -> c0 = c).
Proof.
  unfold selected, title_filter, category_filter. intros Hsel Ht Hc.
  destruct (truthy q) as [pattern|]; simpl in Hsel.
  - destruct (regex_compile pattern) as [m|] eqn:Hm; simpl in Hsel; [|discriminate].
    injection Hsel as <-. rewrite Ht, Hc. simpl. rewrite andb_true_iff.
    destruct (truthy category) as [c|].
    + rewrite String.eqb_eq. split.
      * intros [Hmt ->]. split.
        -- intros ? [= <-]. eauto.
        -- now intros ? [= <-].
      * intros [Hq Hcat]. destruct (Hq pattern eq_refl) as (m' & Hm' & Hmt).
        rewrite Hm in Hm'. injection Hm' as <-. split; [exact Hmt|].
        symmetry. now apply Hcat.
    + split.
      * intros [Hmt _]. split; [|discriminate]. intros ? [= <-]. eauto.
      * intros [Hq _]. destruct (Hq pattern eq_refl) as (m' & Hm' & Hmt).
        rewrite Hm in Hm'. injection Hm' as <-. now split.
  - injection Hsel as <-. rewrite Hc. simpl.
    destruct (truthy category) as [c|].
    + rewrite String.eqb_eq. split.
      * intros ->. split; [discriminate|]. now intros ? [= <-].
      * intros [_ Hcat]. symmetry. now apply Hcat.
    + split; [|reflexivity]. intros _. split; discriminate.
Qed.

(** C9, as the code has it.  List Products maps, in the order of the store,
    the products that [selected] describes: the text query searched in the
    title as a regular expression, whatever the case of the letters, the
    category compared for equality, an absent or empty parameter selecting
    everything.  A limit of 0 (the default is 50) puts no bound; any other
    limit keeps the first [|limit|] of them. *)
Theorem list_products_selection (q category : option string) (limit : option Z)
    (w : world) (s : gmap string (list document)) (p : document -> bool) :
  db w = Some s ->
  selected q category = Some p ->
  exists docs,
    list_products q category limit w = (mapM product_out docs, called w) /\
    docs = cursor_limit (default 50 limit)
             (filter (fun d => p d = true) (collection s "product")) /\
    (default 50%Z limit = 0%Z -> docs = filter (fun d => p d = true) (collection s "product")) /\
    (default 50%Z limit <> 0%Z ->
       docs = take (Z.to_nat (Z.abs (default 50%Z limit)))
                (filter (fun d => p d = true) (collection s "product")) /\
       (length docs <= Z.to_nat (Z.abs (default 50%Z limit)))%nat) /\
    (forall outs, mapM product_out docs = Ok outs -> length outs = length docs) /\
    (forall d title c0,
       fields d !! "title" = Some (VStr title) ->
       fields d !! "category" = Some (VStr c0) ->
       p d = true <->
         (forall pattern, truthy q = Some pattern ->
            exists m, regex_compile pattern = Some m /\ m title = true) /\
         (forall c, truthy category = Some c -> c0 = c)).
Proof.
  intros Hs Hsel. destruct w as [handle t c]. simpl in Hs. subst handle.
  pose proof (filter_query_selected q category) as Hq. rewrite Hsel in Hq.
  destruct Hq as (p' & Hc & Hp').
  eexists. split; [|split; [reflexivity|]].
  - unfold list_products. run. unfold find. simpl. rewrite Hc.
    rewrite (filter_ext_elem (fun d => p' d = true) (fun d => p d = true));
      [reflexivity|]. intros d _. now rewrite Hp'.
  - unfold cursor_limit. split; [|split].
    + intros ->. reflexivity.
    + intros Hn. destruct (Z.eqb_spec (default 50 limit) 0); [contradiction|].
      split; [reflexivity|]. rewrite length_take. lia.
    + split; [intros outs; apply mapM_result_length|].
      intros d title c0. now apply selected_strings.
Qed.

(** C6.  Get Product by Id answers 400 (invalid id) for every id that
    [ObjectId.is_valid] refuses, in whatever world, the world left as it
    was: no call reaches the store.  For a well-formed id and a configured
    store it answers 404 when no product has that id, and otherwise what the
    mapping [product_out] makes of the product with that id. *)
Theorem get_product_outcomes (product_id : string) (w : world) :
  (is_valid product_id = false ->
     get_product product_id w = (Err (HTTPException 400 "Invalid product id"), w)) /\
  (is_valid product_id = true -> forall s, db w = Some s ->
     (Forall (fun d => _id d <> ObjectId product_id) (collection s "product") ->
        get_product product_id w
        = (Err (HTTPException 404 "Product not found"), called w)) /\
     (forall d, d ∈ collection s "product" -> _id d = ObjectId product_id ->
        NoDup (_id <$> collection s "product") ->
        get_product product_id w = (product_out d, called w))).
Proof.
  unfold get_product. split.
  - intros ->. reflexivity.
  - intros -> s Hs. destruct w as [handle t c]. simpl in Hs. subst handle.
    split.
    + intros Hnone. run. unfold find_one. simpl.
      rewrite filter_none; [reflexivity|].
      eapply Forall_impl; [exact Hnone|]. intros d Hd. simpl.
      rewrite andb_true_r. intros Hb. apply Hd. now apply bool_decide_eq_true in Hb.
    + intros d Hin Hid Hnd. run. unfold find_one. simpl.
      erewrite (head_filter_unique _id); [reflexivity| |exact Hnd|exact Hin].
      intros x. simpl. rewrite andb_true_r, bool_decide_eq_true. now rewrite Hid.
Qed.


(** *** Orders *)

Lemma validate_CreateOrder_extra_key (k : string) (v body : value) :
  k ∉ ["customer_name"; "customer_email"; "shipping_address"; "items"] ->
  validate_CreateOrder (with_key k v body) = validate_CreateOrder body.
Proof.
  intros Hk. destruct body; try reflexivity. simpl. unfold required.
  rewrite !lookup_insert_ne; [reflexivity|..]; intros ->; apply Hk; repeat constructor.
Qed.

Lemma create_order_extra_key (k : string) (v body : value) (w : world) :
  k ∉ ["customer_name"; "customer_email"; "shipping_address"; "items"] ->
  create_order (with_key k v body) w = create_order body w.
Proof.
  intros Hk. unfold create_order. now rewrite validate_CreateOrder_extra_key.
Qed.

Lemma create_order_run (body : value) (payload : CreateOrder) (amounts : list float)
    (s : gmap string (list document)) (t c : nat) :
  validate_CreateOrder body = Some payload ->
  co_items payload <> [] ->
  Forall2 (fun it a => item_amount it = Ok a) (co_items payload) amounts ->
  create_order body {| db := Some s; tick := t; store_calls := c |}
  = (Ok {| oo_id := oid_str (new_oid (S (S t)));
           oo_order_number := "ORD-" ++ strftime (utcnow t);
           oo_total_amount := py_sum amounts;
           oo_items := co_items payload;
           oo_status := "pending";
           oo_created_at := utcnow (S (S (S t))) |},
     {| db := Some (<["order" := (collection s "order" ++
                     [{| _id := new_oid (S (S t));
                         fields := <["created_at" := VDatetime (utcnow (S t))]>
                                     (order_doc payload (py_sum amounts)
                                        ("ORD-" ++ strftime (utcnow t))) |}])%list]> s);
        tick := S (S (S (S t))); store_calls := S c |}).
Proof.
  intros Hv Hne Ha. unfold create_order. rewrite Hv.
  destruct (co_items payload) as [|it its] eqn:E; [done|].
  change (length (it :: its) =? 0)%nat with false. cbv iota.
  rewrite <- E in Ha |- *. unfold mbind at 1, M_bind at 1, lift.
  rewrite (mapM_result_Forall2 _ _ _ Ha). reflexivity.
Qed.

(** C1.  When a Create Order request is accepted (the body fits the model,
    the items are not empty, each quantity converts to a float, the store is
    configured), the total in the response and the [total_amount] of the
    inserted document are both [sum] of the items' price * quantity; a
    [total_amount] sent by the client changes nothing, in any world. *)
Theorem create_order_total_amount (body : value) (payload : CreateOrder)
    (amounts : list float) (w : world) (s : gmap string (list document)) :
  validate_CreateOrder body = Some payload ->
  co_items payload <> [] ->
  Forall2 (fun it a => exists q, float_of_int (oi_quantity it) = Some q /\
                                 a = fmul (oi_price it) q)
          (co_items payload) amounts ->
  db w = Some s ->
  exists resp d w',
    create_order body w = (Ok resp, w') /\
    oo_total_amount resp = py_sum amounts /\
    db w' = Some (<["order" := (collection s "order" ++ [d])%list]> s) /\
    fields d !! "total_amount" = Some (VFloat (py_sum amounts)) /\
    forall v w0, create_order (with_key "total_amount" v body) w0 = create_order body w0.
Proof.
  intros Hv Hne Ha Hs. destruct w as [handle t c]. simpl in Hs. subst handle.
  assert (Ha' : Forall2 (fun it a => item_amount it = Ok a) (co_items payload) amounts).
  { eapply Forall2_impl; [exact Ha|]. intros it a (q & Hq & ->).
    unfold item_amount. rewrite Hq. reflexivity. }
  rewrite (create_order_run body payload amounts s t c Hv Hne Ha').
  do 3 eexists. split; [reflexivity|]. split; [reflexivity|].
  split; [reflexivity|]. split; [reflexivity|].
  intros v w0. apply create_order_extra_key. distinct_keys.
Qed.

(** C2, as the code has it.  A body that fits the [CreateOrder] model and
    has no items is answered 400 (empty order); a body that does not fit
    the model is answered 422, whatever its items.  In both cases the world
    is left as it was: nothing is inserted. *)
Theorem create_order_empty_items (body : value) (w : world) :
  (forall payload, validate_CreateOrder body = Some payload -> co_items payload = [] ->
     create_order body w
     = (Err (HTTPException 400 "Order must contain at least one item"), w)) /\
  (validate_CreateOrder body = None ->
     create_order body w = (Err RequestValidationError, w)).
Proof.
  unfold create_order. split.
  - intros payload -> ->. reflexivity.
  - intros ->. reflexivity.
Qed.



(** *** Seeding *)

Lemma collection_store_with (s : gmap string (list document)) (new : list document) :
  collection (store_with s new) "product" = (collection s "product" ++ new)%list.
Proof.
  destruct new as [|d new]; simpl; [now rewrite app_nil_r|].
  unfold collection at 1. now rewrite lookup_insert_eq.
Qed.

Lemma store_with_cons (s : gmap string (list document)) (d : document) (new : list document) :
  store_with (<["product" := (collection s "product" ++ [d])%list]> s) new
  = store_with s (d :: new).
Proof.
  destruct new as [|d' new]; [reflexivity|]. simpl.
  unfold collection at 1. rewrite lookup_insert_eq. simpl.
  rewrite insert_insert_eq, <- app_assoc. reflexivity.
Qed.

Lemma sample_dict_title (p : sample_product) (d : document) :
  sample_dict p ⊆ fields d -> forall title, has_title title d <-> title = sp_title p.
Proof.
  intros Hsub title. unfold has_title.
  assert (E : fields d !! "title" = Some (VStr (sp_title p))).
  { eapply lookup_weaken; [|exact Hsub]. reflexivity. }
  rewrite E. simpl. apply String.eqb_eq.
Qed.

Lemma missing_cons_present (coll : list document) (p : sample_product)
    (ps : list sample_product) :
  Exists (has_title (sp_title p)) coll -> missing coll (p :: ps) = missing coll ps.
Proof.
  intros Hex. unfold missing. rewrite filter_cons.
  destruct (decide (~ Exists (has_title (sp_title p)) coll)); [contradiction | reflexivity].
Qed.

Lemma missing_cons_absent (coll : list document) (p : sample_product)
    (ps : list sample_product) :
  ~ Exists (has_title (sp_title p)) coll -> missing coll (p :: ps) = p :: missing coll ps.
Proof.
  intros Hex. unfold missing. rewrite filter_cons.
  destruct (decide (~ Exists (has_title (sp_title p)) coll)); [reflexivity | contradiction].
Qed.

Lemma seed_loop_run (ps : list sample_product) :
  NoDup (sp_title <$> ps) ->
  forall (inserted : nat) (s : gmap string (list document)) (t c : nat),
  exists s' t' c',
    seed_loop ps inserted {| db := Some s; tick := t; store_calls := c |}
    = (Ok (inserted + length (missing (collection s "product") ps))%nat,
       {| db := Some s'; tick := t'; store_calls := c' |}) /\
    seeded s s' ps.
Proof.
  induction ps as [|p ps IH]; intros Hnd inserted s t c.
  - exists s, t, c. split; [simpl; now rewrite Nat.add_0_r|].
    exists []. split; [reflexivity | constructor].
  - rewrite fmap_cons in Hnd. apply NoDup_cons in Hnd as [Hp Hnd].
    cbn [seed_loop]. unfold mbind at 1, M_bind at 1. rewrite find_one_title_run.
    destruct (head (filter (has_title (sp_title p)) (collection s "product"))) as [d|] eqn:Hhead.
    + assert (Hex : Exists (has_title (sp_title p)) (collection s "product")).
      { destruct (decide (Exists (has_title (sp_title p)) (collection s "product")))
          as [Hex|Hex]; [exact Hex|].
        pose proof (proj2 (head_filter_None (has_title (sp_title p))
                             (collection s "product")) Hex) as Hn.
        rewrite Hn in Hhead. discriminate. }
      destruct (IH Hnd inserted s t (S c)) as (s' & t' & c' & Hrun & Hseed).
      exists s', t', c'. unfold seeded. rewrite (missing_cons_present _ _ _ Hex).
      split; assumption.
    + pose proof (proj1 (head_filter_None (has_title (sp_title p))
                           (collection s "product")) Hhead) as Hnone.
      unfold mbind at 1, M_bind at 1. rewrite create_document_run.
      set (d := {| _id := new_oid (S t);
                   fields := <["created_at" := VDatetime (utcnow t)]> (sample_dict p) |}).
      set (s1 := <["product" := (collection s "product" ++ [d])%list]> s).
      destruct (IH Hnd (S inserted) s1 (S (S t)) (S (S c)))
        as (s' & t' & c' & Hrun & new & Hcoll & Hnew).
      assert (Hs1 : collection s1 "product" = (collection s "product" ++ [d])%list).
      { unfold s1, collection. now rewrite lookup_insert_eq. }
      assert (Hd : sample_dict p ⊆ fields d).
      { apply insert_subseteq. reflexivity. }
      assert (Hmiss : missing (collection s1 "product") ps
                      = missing (collection s "product") ps).
      { unfold missing. apply filter_ext_elem. intros p' Hp'. rewrite Hs1.
        rewrite Exists_app, Exists_cons, Exists_nil.
        rewrite (sample_dict_title p d Hd).
        assert (sp_title p' <> sp_title p).
        { intros E. apply Hp. rewrite <- E. apply list_elem_of_fmap. eauto. }
        tauto. }
      exists s', t', c'. unfold seeded. rewrite (missing_cons_absent _ _ _ Hnone). split.
      * rewrite Hrun, Hmiss. simpl. do 2 f_equal. lia.
      * exists (d :: new). split.
        -- rewrite Hcoll. apply store_with_cons.
        -- constructor; [exact Hd|]. rewrite <- Hmiss. exact Hnew.
Qed.

Lemma seeded_present (s s' : gmap string (list document)) (ps : list sample_product) :
  seeded s s' ps ->
  Forall (fun p => Exists (has_title (sp_title p)) (collection s' "product")) ps.
Proof.
  intros (new & -> & Hnew). rewrite collection_store_with.
  apply Forall_forall. intros p Hp. apply Exists_app.
  destruct (decide (Exists (has_title (sp_title p)) (collection s "product")))
    as [Hex|Hex]; [now left | right].
  assert (Hm : p ∈ missing (collection s "product") ps).
  { unfold missing. apply list_elem_of_filter. split; assumption. }
  apply list_elem_of_lookup in Hm as (i & Hi).
  destruct (Forall2_lookup_l _ _ _ _ _ Hnew Hi) as (d & Hd & Hsub).
  apply Exists_exists. exists d. split; [eapply list_elem_of_lookup_2; exact Hd|].
  now apply (sample_dict_title p d Hsub).
Qed.

Lemma missing_present (coll : list document) (ps : list sample_product) :
  Forall (fun p => Exists (has_title (sp_title p)) coll) ps -> missing coll ps = [].
Proof.
  intros Hall. unfold missing. apply filter_none.
  eapply Forall_impl; [exact Hall|]. intros p Hex Hn. contradiction.
Qed.

Lemma sample_titles_distinct : NoDup (sp_title <$> sample).
Proof.
  simpl. repeat (apply NoDup_cons; split;
    [rewrite ?not_elem_of_cons; repeat split; try discriminate; apply not_elem_of_nil|]).
  apply NoDup_nil_2.
Qed.

(** C8.  On a configured store Seed reports the number of sample entries
    that no product matched by title, and leaves the collection with one
    more product for each of them; a second call right after reports 0 and
    leaves the database as the first call made it. *)
Theorem seed_products_idempotent (w : world) (s : gmap string (list document)) :
  db w = Some s ->
  exists w1 s1 w2,
    seed_products w = (Ok (length (missing (collection s "product") sample)), w1) /\
    db w1 = Some s1 /\
    seeded s s1 sample /\
    length (collection s1 "product")
    = (length (collection s "product") + length (missing (collection s "product") sample))%nat /\
    seed_products w1 = (Ok 0%nat, w2) /\
    db w2 = Some s1.
Proof.
  intros Hs. destruct w as [handle t c]. simpl in Hs. subst handle.
  destruct (seed_loop_run sample sample_titles_distinct 0 s t c)
    as (s1 & t1 & c1 & Hrun1 & Hseed1).
  destruct (seed_loop_run sample sample_titles_distinct 0 s1 t1 c1)
    as (s2 & t2 & c2 & Hrun2 & new & -> & Hnew).
  pose proof (missing_present _ _ (seeded_present _ _ _ Hseed1)) as Hnone.
  rewrite Hnone in Hrun2, Hnew. apply Forall2_nil_inv_l in Hnew. subst new.
  eexists _, s1, _. split; [exact Hrun1|]. split; [reflexivity|].
  split; [exact Hseed1|]. split.
  - destruct Hseed1 as (new & -> & Hnew). rewrite collection_store_with, length_app.
    now rewrite (Forall2_length _ _ _ Hnew).
  - split; [exact Hrun2 | reflexivity].
Qed.

End Properties.

(** ** The endpoints without a store *)

Section Unconfigured.
Context `{PyFloat} `{Mongo} `{!Pydantic} `{!Env}.

(** X13.  The handlers that test the handle refuse with 500 and leave the world
    as it was. *)
Lemma guarded_endpoints_refuse (w : world) :
  db w = None ->
  (forall q category limit,
     list_products q category limit w
     = (Err (HTTPException 500 "Database not configured"), w)) /\
  (forall limit,
     list_orders limit w = (Err (HTTPException 500 "Database not configured"), w)) /\
  seed_products w = (Err (HTTPException 500 "Database not configured"), w).
Proof.
  intros Hdb. unfold list_products, list_orders, seed_products.
  cbv [mbind M_bind get_db raise]. rewrite Hdb. repeat split.
Qed.

(** X14.  The handlers that do not test it: [get_product] answers an invalid id
    as ever and fails on the attribute access otherwise; the two creations
    get as far as [create_document], which refuses, unless the body is
    rejected before. *)
Lemma unguarded_endpoints (w : world) :
  db w = None ->
  (forall product_id, is_valid product_id = false ->
     get_product product_id w = (Err (HTTPException 400 "Invalid product id"), w)) /\
  (forall product_id, is_valid product_id = true ->
     get_product product_id w = (Err (Unhandled AttributeError), w)) /\
  (forall body payload, validate_CreateProduct body = Some payload ->
     create_product body w = (Err (Unhandled DatabaseNotAvailable), w)) /\
  (forall body payload, validate_CreateOrder body = Some payload ->
     co_items payload = [] ->
     create_order body w
     = (Err (HTTPException 400 "Order must contain at least one item"), w)).
Proof.
  intros Hdb. repeat split.
  - intros product_id Hv. unfold get_product. now rewrite Hv.
  - intros product_id Hv. unfold get_product. rewrite Hv. simpl.
    cbv [mbind M_bind]. unfold find_one. now rewrite Hdb.
  - intros body payload Hv. unfold create_product. rewrite Hv.
    unfold create_document. cbv [mbind M_bind get_db raise]. now rewrite Hdb.
  - intros body payload Hv Hi. unfold create_order. now rewrite Hv, Hi.
Qed.
End Unconfigured.

(** ** Further properties of the handlers *)

Section Further.
Context `{PyFloat} `{Mongo} `{!Pydantic} `{!Env}.

Ltac run :=
  cbv [mbind M_bind mret M_ret raise lift get_db called] in *; simpl in *.

(** *** What reads and failed creations leave alone *)

(** X1.  The handlers that read leave the database and the clock as they were,
    whatever they answer. *)
Theorem reads_change_nothing (w : world) :
  (forall q category limit,
     db (list_products q category limit w).2 = db w /\
     tick (list_products q category limit w).2 = tick w) /\
  (forall product_id,
     db (get_product product_id w).2 = db w /\
     tick (get_product product_id w).2 = tick w) /\
  (forall limit,
     db (list_orders limit w).2 = db w /\ tick (list_orders limit w).2 = tick w).
Proof.
  destruct w as [[s|] t c]; repeat split; intros;
    unfold list_products, get_product, list_orders, find, find_one; run;
    repeat match goal with
           | |- context [if ?b then _ else _] => destruct b; simpl
           | |- context [match compile_filter ?q with _ => _ end] =>
               destruct (compile_filter q); simpl
           | |- context [match head ?l with _ => _ end] => destruct (head l); simpl
           end; reflexivity.
Qed.

Lemma create_product_failure (body : value) (w : world) (f : failure) (w' : world) :
  create_product body w = (Err f, w') -> w' = w.
Proof.
  unfold create_product. destruct (validate_CreateProduct body) as [payload|].
  - destruct w as [[s|] t c]; run; intros [= _ <-]; reflexivity || discriminate.
  - run. now intros [= _ <-].
Qed.

Lemma create_order_failure (body : value) (w : world) (f : failure) (w' : world) :
  create_order body w = (Err f, w') ->
  db w' = db w /\ store_calls w' = store_calls w.
Proof.
  unfold create_order. destruct (validate_CreateOrder body) as [payload|];
    [|run; now intros [= _ <-]].
  destruct (length (co_items payload) =? 0)%nat; [run; now intros [= _ <-]|].
  unfold mbind at 1, M_bind at 1, lift.
  destruct (mapM item_amount (co_items payload)) as [amounts|e]; [|now intros [= _ <-]].
  destruct w as [[s|] t c]; run; intros [= _ <-]; split; reflexivity.
Qed.

(** X2.  A creation that fails has stored nothing.  Whatever makes the
    handler of Create Product or of Create Order fail (a body the model
    refuses, an order without items, a quantity that no float holds, a
    handle that is missing) comes before the insertion: the database is as
    it was and no call was made to the store. *)
Theorem failed_creations_store_nothing (w : world) (f : failure) (w' : world) :
  (forall body, create_product body w = (Err f, w') -> w' = w) /\
  (forall body, create_order body w = (Err f, w') ->
     db w' = db w /\ store_calls w' = store_calls w).
Proof.
  split.
  - intros body. apply create_product_failure.
  - intros body. apply create_order_failure.
Qed.

(** *** A product created, then read *)

(** What [product_out] makes of a product as [create_product] stores it:
    the fields of the payload, a null rating read as 0.0. *)
Lemma product_out_written (id : oid) (payload : CreateProduct) (now : datetime) :
  product_out {| _id := id;
                 fields := <["created_at" := VDatetime now]>
                             (CreateProduct_model_dump payload) |}
  = Ok {| po_id := oid_str id; po_title := cp_title payload;
          po_description := cp_description payload; po_price := cp_price payload;
          po_category := cp_category payload; po_in_stock := cp_in_stock payload;
          po_image := cp_image payload;
          po_rating := Some (default (float_lit 0 0) (cp_rating payload)) |}.
Proof.
  destruct (cp_rating payload) as [x|] eqn:Hr; [now apply product_out_stored|].
  unfold product_out, ProductOut_init, get, get_default. cbn [fields _id].
  set (doc := <["created_at" := VDatetime now]> (CreateProduct_model_dump payload)).
  replace (doc !! "price") with (Some (VFloat (cp_price payload))) by reflexivity.
  replace (doc !! "rating") with (Some (opt_float (cp_rating payload))) by reflexivity.
  replace (doc !! "title") with (Some (VStr (cp_title payload))) by reflexivity.
  replace (doc !! "description") with (Some (opt_str (cp_description payload)))
    by reflexivity.
  replace (doc !! "category") with (Some (VStr (cp_category payload))) by reflexivity.
  replace (doc !! "in_stock") with (Some (VBool (cp_in_stock payload))) by reflexivity.
  replace (doc !! "image") with (Some (opt_str (cp_image payload))) by reflexivity.
  rewrite Hr. cbn. rewrite !validate_str_str. cbn.
  destruct (cp_description payload), (cp_image payload); cbn;
    rewrite ?validate_str_str; reflexivity.
Qed.

Lemma head_filter_last {A} (P : A -> Prop) `{forall x, Decision (P x)} (l : list A) (a : A) :
  Forall (fun x => ~ P x) l -> P a -> head (filter P (l ++ [a])%list) = Some a.
Proof.
  intros Hl Ha. rewrite filter_app, (filter_none P l Hl). simpl.
  rewrite filter_cons. destruct (decide (P a)); [reflexivity | contradiction].
Qed.

Lemma collection_insert (s : gmap string (list document)) (name : string)
    (l : list document) :
  collection (<[name := l]> s) name = l.
Proof. unfold collection. now rewrite lookup_insert_eq. Qed.

Lemma collection_insert_ne (s : gmap string (list document)) (name other : string)
    (l : list document) :
  name <> other -> collection (<[name := l]> s) other = collection s other.
Proof. intros Hne. unfold collection. now rewrite lookup_insert_ne. Qed.

Lemma find_one_id_run (o : oid) (s : gmap string (list document)) (t c : nat) :
  find_one "product" [IdEquals o] {| db := Some s; tick := t; store_calls := c |}
  = (Ok (head (filter (fun d => _id d = o) (collection s "product"))),
     {| db := Some s; tick := t; store_calls := S c |}).
Proof.
  unfold find_one. simpl. do 3 f_equal. apply filter_ext_elem.
  intros d _. simpl. now rewrite andb_true_r, bool_decide_eq_true.
Qed.

(** X3.  Create Product then Get Product by Id on the id it answered: the product
    comes back with the fields of the request. *)
Theorem create_then_get_product (body : value) (payload : CreateProduct) (w : world)
    (s : gmap string (list document)) :
  validate_CreateProduct body = Some payload ->
  db w = Some s ->
  is_valid (oid_str (new_oid (S (tick w)))) = true ->
  ObjectId (oid_str (new_oid (S (tick w)))) = new_oid (S (tick w)) ->
  Forall (fun d => _id d <> new_oid (S (tick w))) (collection s "product") ->
  exists id w1,
    create_product body w = (Ok id, w1) /\
    get_product id w1
    = (Ok {| po_id := id; po_title := cp_title payload;
             po_description := cp_description payload; po_price := cp_price payload;
             po_category := cp_category payload; po_in_stock := cp_in_stock payload;
             po_image := cp_image payload;
             po_rating := Some (default (float_lit 0 0) (cp_rating payload)) |},
       called w1).
Proof.
  intros Hv Hs Hvalid Hround Hfresh. destruct w as [handle t c]. simpl in *. subst handle.
  unfold create_product. rewrite Hv.
  change (let product_dict := CreateProduct_model_dump payload in
          inserted_id ← create_document "product" product_dict; mret inserted_id)
    with (inserted_id ← create_document "product" (CreateProduct_model_dump payload);
          mret inserted_id).
  unfold mbind at 1, M_bind at 1. rewrite create_document_run.
  eexists _, _. split; [reflexivity|].
  unfold get_product. rewrite Hvalid. cbn [negb]. rewrite Hround.
  unfold mbind at 1, M_bind at 1. rewrite find_one_id_run.
  rewrite collection_insert.
  rewrite head_filter_last; [|exact Hfresh|reflexivity].
  unfold lift. rewrite product_out_written. reflexivity.
Qed.

(** *** The bounds of the models *)

Lemma ge_0_Some (x y : float) : ge_0 x = Some y -> y = x /\ fle (float_lit 0 0) x = true.
Proof. unfold ge_0. destruct (fle (float_lit 0 0) x); [now intros [= <-] | discriminate]. Qed.

Lemma le_5_Some (x y : float) : le_5 x = Some y -> y = x /\ fle x (float_lit 5 0) = true.
Proof. unfold le_5. destruct (fle x (float_lit 5 0)); [now intros [= <-] | discriminate]. Qed.

Lemma ge_1_Some (n m : Z) : ge_1 n = Some m -> m = n /\ 1 <= n.
Proof.
  unfold ge_1. destruct (Z.leb_spec 1 n); [|discriminate]. now intros [= <-].
Qed.

Lemma validate_CreateProduct_price (body : value) (payload : CreateProduct) :
  validate_CreateProduct body = Some payload ->
  fle (float_lit 0 0) (cp_price payload) = true.
Proof.
  destruct body as [| | | | | | |m]; try discriminate.
  unfold validate_CreateProduct, required. intros Hv.
  destruct (m !! "title" ≫= validate_str); simpl in Hv; [|discriminate].
  destruct (with_default m "description" _ _); simpl in Hv; [|discriminate].
  destruct ((m !! "price" ≫= validate_float) ≫= ge_0) as [price|] eqn:Hp;
    simpl in Hv; [|discriminate].
  destruct (m !! "category" ≫= validate_str); simpl in Hv; [|discriminate].
  destruct (with_default m "in_stock" _ _); simpl in Hv; [|discriminate].
  destruct (with_default m "image" _ _); simpl in Hv; [|discriminate].
  destruct (with_default m "rating" _ _); simpl in Hv; [|discriminate].
  injection Hv as <-. simpl.
  destruct (m !! "price" ≫= validate_float) as [x|]; simpl in Hp; [|discriminate].
  apply ge_0_Some in Hp as [-> Hp]. exact Hp.
Qed.

Lemma validate_OrderItem_bounds (v : value) (it : OrderItem) :
  validate_OrderItem v = Some it ->
  1 <= oi_quantity it /\ fle (float_lit 0 0) (oi_price it) = true.
Proof.
  destruct v as [| | | | | | |m]; try discriminate.
  unfold validate_OrderItem, required. intros Hv.
  destruct (m !! "product_id" ≫= validate_str); simpl in Hv; [|discriminate].
  destruct (m !! "title" ≫= validate_str); simpl in Hv; [|discriminate].
  destruct ((m !! "quantity" ≫= validate_int) ≫= ge_1) as [quantity|] eqn:Hq;
    simpl in Hv; [|discriminate].
  destruct ((m !! "price" ≫= validate_float) ≫= ge_0) as [price|] eqn:Hp;
    simpl in Hv; [|discriminate].
  injection Hv as <-. simpl.
  destruct (m !! "quantity" ≫= validate_int) as [n|]; simpl in Hq; [|discriminate].
  destruct (m !! "price" ≫= validate_float) as [x|]; simpl in Hp; [|discriminate].
  apply ge_1_Some in Hq as [-> Hq]. apply ge_0_Some in Hp as [-> Hp]. now split.
Qed.

Lemma validate_CreateOrder_items (body : value) (payload : CreateOrder) :
  validate_CreateOrder body = Some payload ->
  Forall (fun it => 1 <= oi_quantity it /\ fle (float_lit 0 0) (oi_price it) = true)
         (co_items payload).
Proof.
  destruct body as [| | | | | | |m]; try discriminate.
  unfold validate_CreateOrder, required. intros Hv.
  destruct (m !! "customer_name" ≫= validate_str); simpl in Hv; [|discriminate].
  destruct (m !! "customer_email" ≫= validate_str); simpl in Hv; [|discriminate].
  destruct (m !! "shipping_address" ≫= validate_str); simpl in Hv; [|discriminate].
  destruct (m !! "items" ≫= validate_items) as [items|] eqn:Hi; simpl in Hv; [|discriminate].
  injection Hv as <-. simpl.
  destruct (m !! "items") as [v|]; simpl in Hi; [|discriminate].
  destruct v as [| | | | | |l|]; try discriminate. simpl in Hi.
  apply mapM_Some in Hi. induction Hi as [|x it l items Hx _ IH]; constructor.
  - eapply validate_OrderItem_bounds. exact Hx.
  - exact IH.
Qed.

Lemma create_product_success (body : value) (w : world) (id : string) (w' : world) :
  create_product body w = (Ok id, w') ->
  exists payload s,
    validate_CreateProduct body = Some payload /\ db w = Some s /\
    db w' = Some (<["product" := (collection s "product" ++
                   [{| _id := new_oid (S (tick w));
                       fields := <["created_at" := VDatetime (utcnow (tick w))]>
                                   (CreateProduct_model_dump payload) |}])%list]> s).
Proof.
  unfold create_product. destruct (validate_CreateProduct body) as [payload|];
    [|run; discriminate].
  destruct w as [[s|] t c]; [|run; discriminate].
  change (let product_dict := CreateProduct_model_dump payload in
          inserted_id ← create_document "product" product_dict; mret inserted_id)
    with (inserted_id ← create_document "product" (CreateProduct_model_dump payload);
          mret inserted_id).
  unfold mbind at 1, M_bind at 1. rewrite create_document_run.
  intros [= _ <-]. exists payload, s. repeat split.
Qed.

Lemma create_order_success (body : value) (w : world) (resp : OrderOut) (w' : world) :
  create_order body w = (Ok resp, w') ->
  exists payload,
    validate_CreateOrder body = Some payload /\ co_items payload <> [] /\
    oo_items resp = co_items payload.
Proof.
  unfold create_order. destruct (validate_CreateOrder body) as [payload|];
    [|run; discriminate].
  destruct (co_items payload) as [|it its] eqn:Hitems; [run; discriminate|].
  change (length (it :: its) =? 0)%nat with false. cbv iota.
  unfold mbind at 1, M_bind at 1, lift.
  destruct (mapM item_amount (it :: its)) as [amounts|e]; [|discriminate].
  destruct w as [[s|] t c]; run; [|discriminate].
  intros [= <- _]. exists payload. rewrite Hitems. repeat split. discriminate.
Qed.

(** X4.  What Create Product and Create Order accept is within the bounds of the
    models: no price below zero, no order without items, no quantity below
    one. *)
Theorem accepted_requests_within_bounds (body : value) (w : world) :
  (forall id w', create_product body w = (Ok id, w') ->
     exists payload, validate_CreateProduct body = Some payload /\
                     fle (float_lit 0 0) (cp_price payload) = true) /\
  (forall resp w', create_order body w = (Ok resp, w') ->
     oo_items resp <> [] /\
     Forall (fun it => 1 <= oi_quantity it /\ fle (float_lit 0 0) (oi_price it) = true)
            (oo_items resp)).
Proof.
  split.
  - intros id w' Hrun. apply create_product_success in Hrun as (payload & s & Hv & _).
    exists payload. split; [exact Hv|]. eapply validate_CreateProduct_price. exact Hv.
  - intros resp w' Hrun. apply create_order_success in Hrun as (payload & Hv & Hne & ->).
    split; [exact Hne|]. eapply validate_CreateOrder_items. exact Hv.
Qed.

(** X5.  Every body the [Product] schema of schemas.py accepts, [CreateProduct]
    of main.py accepts with the same result; and a rating that [Product]
    let through is between 0 and 5. *)
Theorem Product_refines_CreateProduct (body : value) (payload : CreateProduct) :
  validate_Product body = Some payload ->
  validate_CreateProduct body = Some payload /\
  (forall m x, body = VDict m -> m !! "rating" <> None -> cp_rating payload = Some x ->
     fle (float_lit 0 0) x = true /\ fle x (float_lit 5 0) = true).
Proof.
  destruct body as [| | | | | | |m]; try discriminate.
  unfold validate_Product, validate_CreateProduct. intros Hv.
  destruct (required m "title" validate_str); simpl in *; [|discriminate].
  destruct (with_default m "description" _ _); simpl in *; [|discriminate].
  destruct (required m "price" validate_float ≫= ge_0); simpl in *; [|discriminate].
  destruct (required m "category" validate_str); simpl in *; [|discriminate].
  destruct (with_default m "in_stock" _ _); simpl in *; [|discriminate].
  destruct (with_default m "image" _ _); simpl in *; [|discriminate].
  destruct (with_default m "rating"
              (optional (fun v => (validate_float v ≫= ge_0) ≫= le_5)) _)
    as [rating|] eqn:Hr; simpl in Hv; [|discriminate].
  injection Hv as <-. simpl. unfold with_default in *.
  destruct (m !! "rating") as [v|] eqn:Hm.
  - assert (Hopt : optional validate_float v = Some rating /\
                   forall x, rating = Some x ->
                     fle (float_lit 0 0) x = true /\ fle x (float_lit 5 0) = true).
    { unfold optional in *. destruct v; try (injection Hr as <-; split; [reflexivity|discriminate]);
        (destruct (validate_float _) as [y|]; simpl in Hr; [|discriminate];
         destruct (ge_0 y) as [y'|] eqn:Hge; simpl in Hr; [|discriminate];
         apply ge_0_Some in Hge as [-> Hge];
         destruct (le_5 y) as [y'|] eqn:Hle; simpl in Hr; [|discriminate];
         apply le_5_Some in Hle as [-> Hle]; injection Hr as <-;
         split; [reflexivity|]; intros r [= <-]; now split). }
    destruct Hopt as [-> Hb]. simpl. split; [reflexivity|].
    intros m' x [= <-] _ Hx. now apply Hb.
  - injection Hr as <-. simpl. split; [reflexivity|].
    intros m' x [= <-] Hne. now rewrite Hm in Hne.
Qed.

(** *** Products that can be read *)

Lemma mapM_result_total {A B} (f : A -> result B) (l : list A) :
  Forall (fun x => exists y, f x = Ok y) l -> exists k, mapM f l = Ok k.
Proof.
  induction 1 as [|x l (y & Hy) _ (k & IH)]; [now exists []|].
  exists (y :: k). simpl. rewrite Hy. simpl. rewrite IH. reflexivity.
Qed.

Lemma mappable_written (payload : CreateProduct) (now : datetime) :
  mappable (<["created_at" := VDatetime now]> (CreateProduct_model_dump payload)).
Proof.
  set (doc := <["created_at" := VDatetime now]> (CreateProduct_model_dump payload)).
  unfold mappable.
  replace (doc !! "price") with (Some (VFloat (cp_price payload))) by reflexivity.
  replace (doc !! "rating") with (Some (opt_float (cp_rating payload))) by reflexivity.
  replace (doc !! "title") with (Some (VStr (cp_title payload))) by reflexivity.
  replace (doc !! "description") with (Some (opt_str (cp_description payload)))
    by reflexivity.
  replace (doc !! "category") with (Some (VStr (cp_category payload))) by reflexivity.
  replace (doc !! "image") with (Some (opt_str (cp_image payload))) by reflexivity.
  split; [eauto|]. split; [|split; [|split; [|split]]].
  - destruct (cp_description payload); [right; right; eauto | right; now left].
  - right. eexists _, _. split; reflexivity.
  - right. eauto.
  - destruct (cp_image payload); [right; right; eauto | right; now left].
  - destruct (cp_rating payload); [right; right; eexists _, _; split; reflexivity
                                  | right; now left].
Qed.

Lemma mappable_sample (p : sample_product) (doc : gmap string value) :
  sample_dict p ⊆ doc -> mappable doc.
Proof.
  intros Hsub.
  assert (Hk : forall k v, sample_dict p !! k = Some v -> doc !! k = Some v).
  { intros k v Hv. eapply lookup_weaken; eassumption. }
  unfold mappable.
  rewrite (Hk "title" (VStr (sp_title p)) eq_refl).
  rewrite (Hk "description" (VStr (sp_description p)) eq_refl).
  rewrite (Hk "price" (VFloat (sp_price p)) eq_refl).
  rewrite (Hk "category" (VStr (sp_category p)) eq_refl).
  rewrite (Hk "image" (VStr (sp_image p)) eq_refl).
  rewrite (Hk "rating" (VFloat (sp_rating p)) eq_refl).
  split; [eauto|]. split; [right; right; eauto|]. split; [right; eexists _, _; split; reflexivity|].
  split; [right; eauto|]. split; [right; right; eauto|].
  right; right; eexists _, _; split; reflexivity.
Qed.

Lemma product_out_mappable (d : document) :
  mappable (fields d) -> exists out, product_out d = Ok out.
Proof.
  intros ((title & Ht) & Hd & Hp & Hc & Hi & Hr). unfold product_out.
  assert (exists price, py_float (get_default (fields d) "price" (VInt 0)) = Ok price)
    as (price & ->).
  { unfold get_default. destruct Hp as [E|(x & y & E & Hy)]; rewrite E; simpl.
    - rewrite float_of_int_0. simpl. eauto.
    - rewrite Hy. eauto. }
  assert (exists rating,
            (if negb (is_None (get (fields d) "rating"))
             then py_float (get_default (fields d) "rating" (VFloat (float_lit 0 0)))
             else Ok (float_lit 0 0)) = Ok rating) as (rating & ->).
  { unfold get, get_default. destruct Hr as [E|[E|(x & y & E & Hy)]]; rewrite E; simpl;
      eauto. rewrite Hy. destruct (negb (is_None x)); eauto. }
  destruct (optional_str_absent _ _ Hd) as (description & Ed & _).
  destruct (optional_str_absent _ _ Hi) as (image & Ei & _).
  assert (exists category,
            validate_str (get_default (fields d) "category" (VStr "General")) = Some category)
    as (category & Ec).
  { unfold get_default. destruct Hc as [E|(c & E)]; rewrite E; simpl;
      rewrite validate_str_str; eauto. }
  assert (Et : validate_str (get (fields d) "title") = Some title).
  { unfold get. rewrite Ht. apply validate_str_str. }
  simpl. unfold ProductOut_init. rewrite Et. simpl. rewrite Ed. simpl.
  rewrite Ec. simpl. rewrite Ei. simpl. eauto.
Qed.

Lemma list_products_run (q category : option string) (limit : option Z)
    (s : gmap string (list document)) (t c : nat) (p : document -> bool) :
  selected q category = Some p ->
  list_products q category limit {| db := Some s; tick := t; store_calls := c |}
  = (mapM product_out
       (cursor_limit (default 50 limit)
          (filter (fun d => p d = true) (collection s "product"))),
     {| db := Some s; tick := t; store_calls := S c |}).
Proof.
  intros Hsel. pose proof (filter_query_selected q category) as Hq. rewrite Hsel in Hq.
  destruct Hq as (p' & Hc & Hp').
  unfold list_products. run. unfold find. simpl. rewrite Hc.
  rewrite (filter_ext_elem (fun d => p' d = true) (fun d => p d = true));
    [reflexivity|]. intros d _. now rewrite Hp'.
Qed.

Lemma Forall_cursor_limit (P : document -> Prop) (n : Z) (l : list document) :
  Forall P l -> Forall P (cursor_limit n l).
Proof.
  intros Hl. unfold cursor_limit. destruct (n =? 0); [exact Hl|]. now apply Forall_take.
Qed.

(** X6.  The products that Create Product and Seed write are ones that the
    mapping reads: a database whose products are all readable stays so
    under both, and on such a database List Products answers whenever the
    store takes the text query, whatever the category and the limit. *)
Theorem writes_keep_products_readable (w : world) (s : gmap string (list document)) :
  db w = Some s ->
  readable s ->
  (forall body id w', create_product body w = (Ok id, w') ->
     exists s', db w' = Some s' /\ readable s') /\
  (forall n w', seed_products w = (Ok n, w') ->
     exists s', db w' = Some s' /\ readable s') /\
  (forall q category limit p, selected q category = Some p ->
     exists outs, list_products q category limit w = (Ok outs, called w)).
Proof.
  intros Hs Hread. split; [|split].
  - intros body id w' Hrun.
    apply create_product_success in Hrun as (payload & s0 & _ & Hs0 & Hdb).
    rewrite Hs in Hs0. injection Hs0 as <-.
    eexists. split; [exact Hdb|]. unfold readable. rewrite collection_insert.
    apply Forall_app. split; [exact Hread|]. constructor; [|constructor].
    apply mappable_written.
  - destruct w as [handle t c]. simpl in Hs. subst handle. intros n w' Hrun.
    change (seed_products {| db := Some s; tick := t; store_calls := c |})
      with (seed_loop sample 0 {| db := Some s; tick := t; store_calls := c |}) in Hrun.
    destruct (seed_loop_run sample sample_titles_distinct 0 s t c)
      as (s' & t' & c' & Hrun' & new & -> & Hnew).
    rewrite Hrun' in Hrun. injection Hrun as _ <-.
    eexists. split; [reflexivity|]. unfold readable. rewrite collection_store_with.
    apply Forall_app. split; [exact Hread|].
    clear Hrun'. induction Hnew as [|p d ps ds Hsub _ IH]; constructor; [|exact IH].
    eapply mappable_sample. exact Hsub.
  - destruct w as [handle t c]. simpl in Hs. subst handle. intros q category limit p Hsel.
    rewrite (list_products_run q category limit s t c p Hsel).
    destruct (mapM_result_total product_out
                (cursor_limit (default 50 limit)
                   (filter (fun d => p d = true) (collection s "product"))))
      as (outs & Hout).
    + apply Forall_cursor_limit. apply Forall_forall. intros d Hd.
      apply list_elem_of_filter in Hd as [_ Hd]. apply product_out_mappable.
      unfold readable in Hread. rewrite Forall_forall in Hread. now apply Hread.
    + exists outs. rewrite Hout. reflexivity.
Qed.

(** *** An order created, then listed *)

Lemma cursor_limit_all (n : Z) (l : list document) :
  (length l <= Z.to_nat (Z.abs n))%nat -> cursor_limit n l = l.
Proof.
  intros Hl. unfold cursor_limit. destruct (n =? 0); [reflexivity|].
  now apply take_ge.
Qed.

(** X7.  Create Order then List Orders with the default limit, the store holding
    fewer than twenty orders: the new order is listed, under the id, the
    number and the total of the response, as pending, with the five keys of
    a summary and nothing of the items or the customer.  The creation time
    listed is the one the store was given, an earlier reading of the clock
    than the one in the response. *)
Theorem create_then_list_orders (body : value) (payload : CreateOrder)
    (amounts : list float) (w : world) (s : gmap string (list document)) :
  validate_CreateOrder body = Some payload ->
  co_items payload <> [] ->
  Forall2 (fun it a => item_amount it = Ok a) (co_items payload) amounts ->
  db w = Some s ->
  (length (collection s "order") < 20)%nat ->
  exists resp w1 summaries summary,
    create_order body w = (Ok resp, w1) /\
    list_orders None w1 = (Ok summaries, called w1) /\
    length summaries = S (length (collection s "order")) /\
    summary ∈ summaries /\
    summary !! "id" = Some (VStr (oo_id resp)) /\
    summary !! "order_number" = Some (VStr (oo_order_number resp)) /\
    summary !! "total_amount" = Some (VFloat (oo_total_amount resp)) /\
    summary !! "status" = Some (VStr (oo_status resp)) /\
    summary !! "created_at" = Some (VDatetime (utcnow (S (tick w)))) /\
    oo_created_at resp = utcnow (S (S (S (tick w)))) /\
    dom summary = {[ "id"; "order_number"; "total_amount"; "status"; "created_at" ]}.
Proof.
  intros Hv Hne Ha Hs Hlen. destruct w as [handle t c]. simpl in Hs. subst handle.
  rewrite (create_order_run body payload amounts s t c Hv Hne Ha).
  set (d := {| _id := new_oid (S (S t)); fields := _ |}).
  eexists _, _, _, (order_summary d). split; [reflexivity|].
  rewrite list_orders_run, collection_insert. cbn [default tick].
  pose proof (merge_sort_Permutation newest_first (collection s "order" ++ [d])) as Hperm.
  rewrite cursor_limit_all.
  2:{ rewrite (Permutation_length Hperm), length_app. simpl. lia. }
  split; [reflexivity|]. split.
  { rewrite length_fmap, (Permutation_length Hperm), length_app. simpl. lia. }
  split.
  { apply list_elem_of_fmap. exists d. split; [reflexivity|].
    rewrite Hperm. apply elem_of_app. right. constructor. }
  repeat split; reflexivity.
Qed.

(** *** Seeding, overflow, and the parameters of the listing *)

(** X8.  Seed on a configured store always succeeds, and adds to the products
    without touching anything else: the products that were there stay in
    place, as many as the count it answers follow them, four at most, and
    every other collection is as it was. *)
Theorem seed_keeps_what_is_there (w : world) (s : gmap string (list document)) :
  db w = Some s ->
  exists n w' s' new,
    seed_products w = (Ok n, w') /\
    db w' = Some s' /\
    collection s' "product" = (collection s "product" ++ new)%list /\
    length new = n /\ (n <= 4)%nat /\
    forall name, name <> "product" -> collection s' name = collection s name.
Proof.
  intros Hs. destruct w as [handle t c]. simpl in Hs. subst handle.
  change (seed_products {| db := Some s; tick := t; store_calls := c |})
    with (seed_loop sample 0 {| db := Some s; tick := t; store_calls := c |}).
  destruct (seed_loop_run sample sample_titles_distinct 0 s t c)
    as (s' & t' & c' & Hrun' & new & -> & Hnew).
  rewrite Hrun'. eexists _, _, (store_with s new), new.
  split; [reflexivity|]. split; [reflexivity|].
  split; [apply collection_store_with|].
  split; [symmetry; exact (Forall2_length _ _ _ Hnew)|].
  split.
  - unfold missing. etransitivity; [apply length_filter|]. reflexivity.
  - intros name Hne. destruct new as [|d new]; [reflexivity|]. simpl.
    apply collection_insert_ne. congruence.
Qed.

Lemma item_amount_failure (it : OrderItem) (f : failure) :
  item_amount it = Err f -> f = Unhandled OverflowError.
Proof.
  unfold item_amount, of_option.
  destruct (float_of_int (oi_quantity it)); intros E; [discriminate E|].
  now injection E as <-.
Qed.

Lemma mapM_item_amount_overflow (items : list OrderItem) :
  Exists (fun it => float_of_int (oi_quantity it) = None) items ->
  mapM item_amount items = Err (Unhandled OverflowError).
Proof.
  induction items as [|it items IH]; intros Hex; [inversion Hex|].
  change (mapM item_amount (it :: items))
    with (y ← item_amount it; k ← mapM item_amount items; mret (y :: k)).
  destruct (item_amount it) as [a|f] eqn:Ha.
  - inversion Hex as [? ? Hq|? ? Hrest]; subst.
    + unfold item_amount in Ha. rewrite Hq in Ha. discriminate.
    + rewrite (IH Hrest). reflexivity.
  - rewrite (item_amount_failure _ _ Ha). reflexivity.
Qed.

(** X9.  A quantity too large to be a float passes the validation and then
    breaks the computation of the total: the request ends on an OverflowError
    that nothing catches, before the clock is read or the store called. *)
Theorem create_order_overflow (body : value) (payload : CreateOrder) (w : world) :
  validate_CreateOrder body = Some payload ->
  Exists (fun it => float_of_int (oi_quantity it) = None) (co_items payload) ->
  create_order body w = (Err (Unhandled OverflowError), w) /\
  status_of (Unhandled OverflowError) = 500%nat.
Proof.
  intros Hv Hex. split; [|reflexivity]. unfold create_order. rewrite Hv.
  destruct (co_items payload) as [|it its] eqn:Hitems; [inversion Hex|].
  change (length (it :: its) =? 0)%nat with false. cbv iota.
  unfold mbind at 1, M_bind at 1, lift.
  now rewrite (mapM_item_amount_overflow _ Hex).
Qed.

Lemma find_opposite (name : string) (q : list cond) (sorted : bool) (n : Z) (w : world) :
  find name q sorted (- n) w = find name q sorted n w.
Proof.
  unfold find, cursor_limit. rewrite Z.abs_opp.
  replace (- n =? 0) with (n =? 0); [reflexivity|].
  destruct (Z.eqb_spec n 0), (Z.eqb_spec (- n) 0); lia || reflexivity.
Qed.

(** X10.  The parameters of List Products at their edges: an empty text query or
    category filters nothing, as if it were absent; a negative limit bounds
    as its opposite does; and a text query that the store does not take as a
    regular expression makes the request fail on the store's error, after
    the call. *)
Theorem list_products_parameters (q category : option string) (limit : option Z)
    (w : world) :
  list_products (Some "") category limit w = list_products None category limit w /\
  list_products q (Some "") limit w = list_products q None limit w /\
  (forall n, list_products q category (Some (- n)) w
             = list_products q category (Some n) w) /\
  (forall s pattern, db w = Some s -> truthy q = Some pattern ->
     regex_compile pattern = None ->
     list_products q category limit w = (Err (Unhandled OperationFailure), called w)).
Proof.
  split; [reflexivity|]. split.
  { unfold list_products, filter_query. destruct (truthy q); reflexivity. }
  split.
  - intros n. unfold list_products.
    change (default 50 (Some (- n))) with (- n).
    change (default 50 (Some n)) with n.
    unfold mbind, M_bind, get_db. destruct (db w); [|reflexivity].
    now rewrite find_opposite.
  - intros s pattern Hs Hq Hre. apply (list_products_rejected _ _ _ _ s Hs).
    unfold selected, title_filter. rewrite Hq, Hre. reflexivity.
Qed.

(** *** Order numbers and seconds *)

Lemma create_order_number (body : value) (w : world) (resp : OrderOut) (w' : world) :
  create_order body w = (Ok resp, w') ->
  oo_order_number resp = ("ORD-" ++ strftime (utcnow (tick w)))%string.
Proof.
  unfold create_order. destruct (validate_CreateOrder body) as [payload|];
    [|run; discriminate].
  destruct (co_items payload) as [|it its] eqn:Hitems; [run; discriminate|].
  change (length (it :: its) =? 0)%nat with false. cbv iota.
  unfold mbind at 1, M_bind at 1, lift.
  destruct (mapM item_amount (it :: its)) as [amounts|e]; [|discriminate].
  destruct w as [[s|] t c]; run; [|discriminate].
  now intros [= <- _].
Qed.

(** X11.  The order number names the second in which the order was taken, not the
    order: two accepted orders carry the same number exactly when the clock
    read the same second for both, whatever they contain. *)
Theorem order_number_names_the_second (body1 body2 : value) (w1 w2 : world)
    (resp1 resp2 : OrderOut) (w1' w2' : world) :
  create_order body1 w1 = (Ok resp1, w1') ->
  create_order body2 w2 = (Ok resp2, w2') ->
  valid_datetime (utcnow (tick w1)) ->
  valid_datetime (utcnow (tick w2)) ->
  oo_order_number resp1 = oo_order_number resp2
  <-> same_second (utcnow (tick w1)) (utcnow (tick w2)).
Proof.
  intros R1 R2 V1 V2.
  rewrite (create_order_number _ _ _ _ R1), (create_order_number _ _ _ _ R2).
  split.
  - intros [= E]. now apply strftime_inj.
  - intros (Ey & Em & Ed & Eh & Emi & Es). unfold strftime.
    now rewrite Ey, Em, Ed, Eh, Emi, Es.
Qed.
End Further.

(** ** The report of the diagnostic endpoint *)

Section Report.
Context `{PyFloat} `{Mongo} `{!Deployment}.

Lemma len_slice_to (n : nat) (s : string) : (len (slice_to n s) <= n)%nat.
Proof.
  revert n. induction s as [|c s IH]; intros n; simpl; [lia|].
  destruct (continuation c) eqn:Ec; simpl; rewrite ?Ec; [apply IH|].
  destruct n as [|n]; simpl; rewrite ?Ec; [lia|]. specialize (IH n). lia.
Qed.

Lemma slice_to_prefix (n : nat) (s : string) :
  exists rest, s = (slice_to n s ++ rest)%string.
Proof.
  revert n. induction s as [|c s IH]; intros n; simpl; [now exists ""|].
  destruct (continuation c).
  - destruct (IH n) as [rest E]. exists rest.
    change (String c s = String c (slice_to n s ++ rest)%string). now f_equal.
  - destruct n as [|n]; [now eexists|].
    destruct (IH n) as [rest E]. exists rest.
    change (String c s = String c (slice_to n s ++ rest)%string). now f_equal.
Qed.

(** X12.  The report of GET /test, whatever the state of the service: it always
    comes, with its six keys, and leaves the database as it is; the two
    entries on the configuration say whether the variables are set to
    something, never what the handle holds; the status is Connected exactly
    with a handle; the collections are the first ten of those listed at
    most; the text of a failed listing is quoted up to fifty characters;
    the initial Not Available is never what comes out. *)
Theorem test_database_report (w : world) :
  exists r w',
    test_database w = (Ok r, w') /\ db w' = db w /\
    dom r = ({[ "backend"; "database"; "database_url"; "database_name";
                "connection_status"; "collections" ]} : gset string) /\
    r !! "database_url"
      = Some (VStr (match truthy (getenv "DATABASE_URL") with
                | Some _ => "✅ Set"
                | None => "❌ Not Set"
                end)) /\
    r !! "database_name"
      = Some (VStr (match truthy (getenv "DATABASE_NAME") with
                | Some _ => "✅ Set"
                | None => "❌ Not Set"
                end)) /\
    (r !! "connection_status" = Some (VStr "Connected") <-> db w <> None) /\
    r !! "database" <> Some (VStr "❌ Not Available") /\
    (exists names,
       r !! "collections" = Some (VList (VStr <$> names)) /\ (length names <= 10)%nat /\
       match db w with
       | Some s =>
           match list_collection_names s with
           | Names l => names = take 10 l
           | Raises e =>
               names = [] /\
               exists quoted,
                 r !! "database" = Some (VStr ("⚠️  Connected but Error: " ++ quoted)) /\
                 (len quoted <= 50)%nat /\ exists rest, e = (quoted ++ rest)%string
           end
       | None => names = []
       end).
Proof.
  unfold test_database. destruct w as [[s|] t c]; simpl.
  - destruct (list_collection_names s) as [l|e]; simpl.
    + eexists _, _. split; [reflexivity|]. split; [reflexivity|].
      split; [reflexivity|]. split; [reflexivity|]. split; [reflexivity|].
      split; [split; [discriminate | reflexivity]|].
      split; [discriminate|].
      exists (take 10 l). split; [reflexivity|]. split; [|reflexivity].
      rewrite length_take. lia.
    + eexists _, _. split; [reflexivity|]. split; [reflexivity|].
      split; [reflexivity|]. split; [reflexivity|]. split; [reflexivity|].
      split; [split; [discriminate | reflexivity]|].
      split; [discriminate|].
      exists []. split; [reflexivity|]. split; [simpl; lia|]. split; [reflexivity|].
      exists (slice_to 50 e). split; [reflexivity|].
      split; [apply len_slice_to | apply slice_to_prefix].
  - eexists _, _. split; [reflexivity|]. split; [reflexivity|].
    split; [reflexivity|]. split; [reflexivity|]. split; [reflexivity|].
    split; [split; [discriminate | congruence]|].
    split; [discriminate|].
    exists []. split; [reflexivity|]. split; [simpl; lia | reflexivity].
Qed.
End Report.

(** ** The handlers at work *)

Section Examples.
#[local] Existing Instances Demo.float64 Demo.hex24 Demo.validators Demo.stepping.
Import Demo.

Example strftime_example :
  strftime (utcnow 2%nat) = "20240309070502".
Proof. reflexivity. Qed.

(** The example of the specification: two mugs at 9.99 make 19.98. *)
Example two_mugs_total :
  (create_order two_mugs empty_store).1
  = Ok {| oo_id := "000000000000000000000002";
          oo_order_number := "ORD-20240309070500";
          oo_total_amount := lit 1998 (-2);
          oo_items := co_items two_mugs_payload;
          oo_status := "pending";
          oo_created_at := utcnow 3%nat |}.
Proof. reflexivity. Qed.

(** The example of the specification: the mug read back. *)
Example mug_read_back :
  (get_product "000000000000000000000001" mug_store).1
  = Ok mug_out.
Proof. reflexivity. Qed.

Lemma create_order_total_amount_witness :
  exists resp d w',
    create_order two_mugs empty_store = (Ok resp, w') /\
    oo_total_amount resp = py_sum two_mugs_amounts /\
    db w' = Some (<["order" := (collection ∅ "order" ++ [d])%list]> ∅) /\
    fields d !! "total_amount" = Some (VFloat (py_sum two_mugs_amounts)) /\
    forall v w0, create_order (with_key "total_amount" v two_mugs) w0
                 = create_order two_mugs w0.
Proof.
  apply (create_order_total_amount two_mugs two_mugs_payload
           two_mugs_amounts empty_store ∅).
  - reflexivity.
  - discriminate.
  - repeat constructor. exists (of_Z 2). split; reflexivity.
  - reflexivity.
Defined.

(** C2, as stated, fails: an order with no items and no customer name is
    answered 422 by the validation of the body, not 400. *)
Lemma empty_order_without_name_is_422 :
  required (match nameless_empty_order with VDict m => m | _ => ∅ end) "items" validate_items
  = Some [] /\
  create_order nameless_empty_order empty_store
  = (Err RequestValidationError, empty_store) /\
  status_of RequestValidationError = 422%nat /\
  ~ (exists w', create_order nameless_empty_order empty_store
                = (Err (HTTPException 400 "Order must contain at least one item"), w')).
Proof.
  assert (E : create_order nameless_empty_order empty_store
              = (Err RequestValidationError, empty_store)) by reflexivity.
  split; [reflexivity|]. split; [exact E|]. split; [reflexivity|].
  intros (w' & Hw). rewrite E in Hw. discriminate.
Qed.

Lemma create_order_empty_items_witness :
  create_order empty_order empty_store
  = (Err (HTTPException 400 "Order must contain at least one item"), empty_store) /\
  create_order nameless_empty_order unconfigured
  = (Err RequestValidationError, unconfigured).
Proof.
  split.
  - apply (proj1 (create_order_empty_items empty_order empty_store) empty_order_payload);
      reflexivity.
  - apply (proj2 (create_order_empty_items nameless_empty_order unconfigured)).
    reflexivity.
Defined.

(** C3, as stated, fails: a stored product without a title is not mapped. *)
Lemma untitled_product_fails :
  fields untitled !! "title" = None /\
  product_out untitled = Err (Unhandled ValidationError) /\
  ~ (exists out, product_out untitled = Ok out).
Proof.
  assert (E : product_out untitled = Err (Unhandled ValidationError)) by reflexivity.
  split; [reflexivity|]. split; [exact E|].
  intros (out & Hout). rewrite E in Hout. discriminate.
Qed.

Lemma product_out_defaults_witness :
  exists out, product_out bare = Ok out /\
    po_id out = "000000000000000000000008" /\
    fields bare !! "title" = Some (VStr (po_title out)) /\
    (fields bare !! "category" = None -> po_category out = "General") /\
    (fields bare !! "in_stock" = None -> po_in_stock out = true) /\
    (fields bare !! "rating" = None -> po_rating out = Some (lit 0 0)) /\
    (fields bare !! "price" = None -> po_price out = lit 0 0) /\
    (fields bare !! "description" = None -> po_description out = None) /\
    (fields bare !! "image" = None -> po_image out = None).
Proof.
  apply (proj1 (product_out_defaults bare)).
  unfold mappable, opt_str_or_absent, float_or_absent, str_or_absent, opt_float_or_absent.
  split; [exists "Mug"; reflexivity|]. repeat split; left; reflexivity.
Defined.

(** C4: main.py accepts and stores a rating of 7.5, which the [Product]
    schema of schemas.py refuses. *)
Theorem create_product_accepts_rating_above_5 :
  create_product overrated_mug empty_store
  = (Ok "000000000000000000000001",
     {| db := Some {[ "product" := [overrated_doc] ]}; tick := 2; store_calls := 1 |}) /\
  fields overrated_doc !! "rating" = Some (VFloat (lit 75 (-1))) /\
  fle (lit 75 (-1)) (lit 5 0) = false /\
  validate_Product overrated_mug = None.
Proof. repeat split. Qed.

(** C5: without a store, Get Product by Id does not answer the 500 of the
    handlers that test the handle: an invalid id is answered 400, and a
    valid one fails on the attribute access, an exception no handler
    catches. *)
Theorem get_product_without_store :
  get_product "not-an-id" unconfigured
  = (Err (HTTPException 400 "Invalid product id"), unconfigured) /\
  get_product "000000000000000000000001" unconfigured
  = (Err (Unhandled AttributeError), unconfigured) /\
  list_products None None None unconfigured
  = (Err (HTTPException 500 "Database not configured"), unconfigured) /\
  create_order empty_order unconfigured
  = (Err (HTTPException 400 "Order must contain at least one item"), unconfigured).
Proof. repeat split. Qed.

Lemma get_product_outcomes_witness :
  get_product "not-an-id" mug_store
  = (Err (HTTPException 400 "Invalid product id"), mug_store) /\
  get_product "000000000000000000000002" mug_store
  = (Err (HTTPException 404 "Product not found"), called mug_store) /\
  get_product "000000000000000000000001" mug_store
  = (product_out mug_doc, called mug_store).
Proof.
  pose proof (get_product_outcomes "000000000000000000000002" mug_store) as [_ Hmiss].
  pose proof (get_product_outcomes "000000000000000000000001" mug_store) as [_ Hfound].
  specialize (Hmiss eq_refl {[ "product" := [mug_doc] ]} eq_refl) as [Hmiss _].
  specialize (Hfound eq_refl {[ "product" := [mug_doc] ]} eq_refl) as [_ Hfound].
  split; [|split].
  - apply (proj1 (get_product_outcomes "not-an-id" mug_store)). reflexivity.
  - apply Hmiss. repeat constructor. discriminate.
  - apply (Hfound mug_doc).
    + constructor.
    + reflexivity.
    + repeat constructor. intros Hin. inversion Hin.
Defined.


Lemma seed_products_idempotent_witness :
  exists w1 s1 w2,
    seed_products empty_store = (Ok 4%nat, w1) /\
    db w1 = Some s1 /\
    seeded ∅ s1 sample /\
    length (collection s1 "product") = 4%nat /\
    seed_products w1 = (Ok 0%nat, w2) /\
    db w2 = Some s1.
Proof.
  exact (seed_products_idempotent empty_store ∅ eq_refl).
Defined.

(** C9, as stated, fails twice over: the query [.] selects the mug, whose
    title holds no dot, and a limit of 0 does not bound the answer. *)
Lemma list_products_dot_and_limit_0 :
  list_products (Some ".") None None mug_store = (Ok [mug_out], called mug_store) /\
  icontains "." (po_title mug_out) = false /\
  list_products None None (Some 0) mug_store = (Ok [mug_out], called mug_store) /\
  ~ (length [mug_out] <= 0)%nat.
Proof. repeat split. simpl. lia. Qed.

Lemma list_products_selection_witness :
  exists docs,
    list_products (Some "mu") (Some "Home") (Some 1) mug_store
    = (mapM product_out docs, called mug_store) /\
    docs = [mug_doc] /\
    mapM product_out docs = Ok [mug_out].
Proof.
  destruct (list_products_selection (Some "mu") (Some "Home") (Some 1) mug_store
              {[ "product" := [mug_doc] ]}
              (fun d => str_match (search "mu") (fields d !! "title")
                        && category_filter (Some "Home") d) eq_refl eq_refl)
    as (docs & Hrun & Hdocs & _).
  exists docs. split; [exact Hrun|]. rewrite Hdocs. split; reflexivity.
Defined.

(** C10, as stated, fails: with [rating: null] the stored rating is null,
    and reading the product back takes the default 0.0 for it. *)
Lemma null_rating_read_back :
  create_product unrated_mug empty_store
  = (Ok "000000000000000000000001",
     {| db := Some {[ "product" := [unrated_doc] ]}; tick := 2; store_calls := 1 |}) /\
  fields unrated_doc !! "rating" = Some VNone /\
  uses_fallback (fields unrated_doc) = true /\
  product_out unrated_doc = Ok mug_out /\
  po_rating mug_out = Some (lit 0 0).
Proof. repeat split. Qed.

Lemma create_product_document_witness :
  exists id d w',
    create_product mug empty_store = (Ok id, w') /\
    db w' = Some (<["product" := (collection ∅ "product" ++ [d])%list]> ∅) /\
    fields d !! "title" = Some (VStr "Mug") /\
    fields d !! "description" = Some VNone /\
    fields d !! "price" = Some (VFloat (lit 999 (-2))) /\
    fields d !! "category" = Some (VStr "Home") /\
    fields d !! "in_stock" = Some (VBool true) /\
    fields d !! "image" = Some VNone /\
    fields d !! "rating" = Some (VFloat (lit 0 0)) /\
    uses_fallback (fields d) = false /\
    product_out d
    = Ok {| po_id := id; po_title := "Mug"; po_description := None;
            po_price := lit 999 (-2); po_category := "Home"; po_in_stock := true;
            po_image := None; po_rating := Some (lit 0 0) |}.
Proof.
  assert (Hv : validate_CreateProduct mug = Some mug_payload) by reflexivity.
  destruct (create_product_document mug mug_payload empty_store ∅ Hv eq_refl)
    as (id & d & w' & Hrun & Hdb & Ht & Hd & Hp & Hc & Hs & Hi & Hr & _ & Hf & Hout).
  exists id, d, w'. repeat split; try assumption.
  exact (Hout (lit 0 0) eq_refl).
Defined.
End Examples.

(** ** The further properties at work *)

Section MoreExamples.
#[local] Existing Instances Demo.float64 Demo.hex24 Demo.validators Demo.stepping.
Import Demo.

Lemma create_then_get_product_witness :
  exists id w1,
    create_product rated_mug empty_store = (Ok id, w1) /\
    get_product id w1
    = (Ok {| po_id := id; po_title := cp_title rated_mug_payload;
             po_description := cp_description rated_mug_payload;
             po_price := cp_price rated_mug_payload;
             po_category := cp_category rated_mug_payload;
             po_in_stock := cp_in_stock rated_mug_payload;
             po_image := cp_image rated_mug_payload;
             po_rating := Some (default (float_lit 0 0) (cp_rating rated_mug_payload)) |},
       called w1).
Proof.
  assert (Hv : validate_CreateProduct rated_mug = Some rated_mug_payload) by reflexivity.
  assert (Hfresh : Forall (fun d => _id d <> new_oid (S (tick empty_store)))
                     (collection ∅ "product")) by exact (List.Forall_nil _).
  exact (create_then_get_product rated_mug rated_mug_payload empty_store ∅
           Hv eq_refl eq_refl eq_refl Hfresh).
Defined.

Lemma Product_refines_CreateProduct_witness :
  validate_CreateProduct rated_mug = Some rated_mug_payload /\
  (forall m x, rated_mug = VDict m -> m !! "rating" <> None ->
     cp_rating rated_mug_payload = Some x ->
     fle (float_lit 0 0) x = true /\ fle x (float_lit 5 0) = true).
Proof.
  assert (Hv : validate_Product rated_mug = Some rated_mug_payload) by reflexivity.
  exact (Product_refines_CreateProduct rated_mug rated_mug_payload Hv).
Defined.

Lemma writes_keep_products_readable_witness :
  (forall body id w', create_product body mug_store = (Ok id, w') ->
     exists s', db w' = Some s' /\ readable s') /\
  (forall n w', seed_products mug_store = (Ok n, w') ->
     exists s', db w' = Some s' /\ readable s') /\
  (forall q category limit p, selected q category = Some p ->
     exists outs, list_products q category limit mug_store = (Ok outs, called mug_store)).
Proof.
  assert (Hread : readable {[ "product" := [mug_doc] ]}).
  { unfold readable. change (collection {[ "product" := [mug_doc] ]} "product")
      with [mug_doc]. constructor; [|constructor].
    exact (mappable_written mug_payload (clock 0)). }
  exact (writes_keep_products_readable mug_store {[ "product" := [mug_doc] ]}
           eq_refl Hread).
Defined.

Lemma create_then_list_orders_witness :
  exists resp w1 summaries summary,
    create_order two_mugs empty_store = (Ok resp, w1) /\
    list_orders None w1 = (Ok summaries, called w1) /\
    length summaries = S (length (collection ∅ "order")) /\
    summary ∈ summaries /\
    summary !! "id" = Some (VStr (oo_id resp)) /\
    summary !! "order_number" = Some (VStr (oo_order_number resp)) /\
    summary !! "total_amount" = Some (VFloat (oo_total_amount resp)) /\
    summary !! "status" = Some (VStr (oo_status resp)) /\
    summary !! "created_at" = Some (VDatetime (utcnow (S (tick empty_store)))) /\
    oo_created_at resp = utcnow (S (S (S (tick empty_store)))) /\
    dom summary = {[ "id"; "order_number"; "total_amount"; "status"; "created_at" ]}.
Proof.
  assert (Hitems : co_items two_mugs_payload <> []) by discriminate.
  assert (Hamounts : Forall2 (fun it a => item_amount it = Ok a)
                       (co_items two_mugs_payload) two_mugs_amounts)
    by repeat constructor.
  assert (Hfew : (0 < 20)%nat) by lia.
  exact (create_then_list_orders two_mugs two_mugs_payload two_mugs_amounts
           empty_store ∅ eq_refl Hitems Hamounts eq_refl Hfew).
Defined.

Lemma seed_keeps_what_is_there_witness :
  exists n w' s' new,
    seed_products mug_store = (Ok n, w') /\
    db w' = Some s' /\
    collection s' "product"
    = (collection {[ "product" := [mug_doc] ]} "product" ++ new)%list /\
    length new = n /\ (n <= 4)%nat /\
    forall name, name <> "product" ->
      collection s' name = collection {[ "product" := [mug_doc] ]} name.
Proof.
  exact (seed_keeps_what_is_there mug_store {[ "product" := [mug_doc] ]} eq_refl).
Defined.

Lemma create_order_overflow_witness :
  create_order countless_mugs empty_store = (Err (Unhandled OverflowError), empty_store) /\
  status_of (Unhandled OverflowError) = 500%nat.
Proof.
  assert (Hv : validate_CreateOrder countless_mugs = Some countless_mugs_payload)
    by reflexivity.
  assert (Hex : Exists (fun it => float_of_int (oi_quantity it) = None)
                  (co_items countless_mugs_payload))
    by (constructor; reflexivity).
  exact (create_order_overflow countless_mugs countless_mugs_payload empty_store Hv Hex).
Defined.

Lemma order_number_names_the_second_witness :
  exists resp1 resp2 w1 w2,
    create_order two_mugs empty_store = (Ok resp1, w1) /\
    create_order two_mugs mug_store = (Ok resp2, w2) /\
    (oo_order_number resp1 = oo_order_number resp2
     <-> same_second (utcnow (tick empty_store)) (utcnow (tick mug_store))).
Proof.
  assert (H1 : valid_datetime (utcnow (tick empty_store)))
    by (unfold valid_datetime; vm_compute; repeat split; easy).
  assert (H2 : valid_datetime (utcnow (tick mug_store)))
    by (unfold valid_datetime; vm_compute; repeat split; easy).
  assert (E1 : create_order two_mugs empty_store
               = (Ok {| oo_id := "000000000000000000000002";
                        oo_order_number := "ORD-20240309070500";
                        oo_total_amount := lit 1998 (-2);
                        oo_items := co_items two_mugs_payload;
                        oo_status := "pending";
                        oo_created_at := utcnow 3%nat |},
                  (create_order two_mugs empty_store).2)) by reflexivity.
  assert (E2 : create_order two_mugs mug_store
               = (Ok {| oo_id := "000000000000000000000004";
                        oo_order_number := "ORD-20240309070502";
                        oo_total_amount := lit 1998 (-2);
                        oo_items := co_items two_mugs_payload;
                        oo_status := "pending";
                        oo_created_at := utcnow 5%nat |},
                  (create_order two_mugs mug_store).2)) by reflexivity.
  eexists _, _, _, _. split; [exact E1|]. split; [exact E2|].
  exact (order_number_names_the_second two_mugs two_mugs empty_store mug_store
           _ _ _ _ E1 E2 H1 H2).
Defined.

Lemma guarded_endpoints_refuse_witness :
  (forall q category limit,
     list_products q category limit unconfigured
     = (Err (HTTPException 500 "Database not configured"), unconfigured)) /\
  (forall limit,
     list_orders limit unconfigured
     = (Err (HTTPException 500 "Database not configured"), unconfigured)) /\
  seed_products unconfigured
  = (Err (HTTPException 500 "Database not configured"), unconfigured).
Proof.
  exact (guarded_endpoints_refuse unconfigured eq_refl).
Defined.

Lemma unguarded_endpoints_witness :
  (forall product_id, is_valid product_id = false ->
     get_product product_id unconfigured
     = (Err (HTTPException 400 "Invalid product id"), unconfigured)) /\
  (forall product_id, is_valid product_id = true ->
     get_product product_id unconfigured = (Err (Unhandled AttributeError), unconfigured)) /\
  (forall body payload, validate_CreateProduct body = Some payload ->
     create_product body unconfigured
     = (Err (Unhandled DatabaseNotAvailable), unconfigured)) /\
  (forall body payload, validate_CreateOrder body = Some payload ->
     co_items payload = [] ->
     create_order body unconfigured
     = (Err (HTTPException 400 "Order must contain at least one item"), unconfigured)).
Proof.
  exact (unguarded_endpoints unconfigured eq_refl).
Defined.
End MoreExamples.
